(** * searxng-simple-mcp: the search pipeline, embedded and verified

    A shallow embedding of [searxng_client.py] (the models [SearxngResult]
    and [SearxngResponse], [SearxNGClient.search],
    [SearxNGClient.format_results]) and of [server.py] ([web_search]).

    Conventions.
    - The libraries are read as the tool's host requires them: pydantic 2
      with its default (lax) validation, httpx with [raise_for_status]
      raising outside 200..299.
    - A Python [str] is a [string]; one [ascii] stands for one character.
    - A Python [int] is a [Z]; a Python [float] is a [spec_float]
      (sign, mantissa, exponent; signed zeros, infinities, NaN).
    - A JSON document decoded by [response.json()], and the generic
      mapping handed to [format_results], is a [pyval].
    - A [dict] is an association list in insertion order, read from the
      left; [dict_set] keeps keys unique.
    - Effects (log records, context notices, the outbound GET) are
      collected in a trace; an exception ends the computation with [Raise]. *)

From Stdlib Require Import ZArith List String Ascii Bool Lia.
From Stdlib Require Import Numbers.DecimalString.
From Stdlib Require Import Floats.SpecFloat.
Import ListNotations.

Set Warnings "-register-all".

Open Scope string_scope.
Open Scope Z_scope.

(* ================================================================== *)
(** * The Python runtime                                                *)
(* ================================================================== *)

Module Py.

(** ** Values *)

Inductive pyval : Type :=
| PNone
| PBool (b : bool)
| PInt (z : Z)
| PFloat (f : spec_float)
| PStr (s : string)
| PList (l : list pyval)
| PDict (d : list (string * pyval)).

(** ** Dictionaries *)

Definition dict (V : Type) : Type := list (string * V).

Fixpoint dict_get {V} (d : dict V) (k : string) : option V :=
  match d with
  | [] => None
  | (k', v) :: d' => if String.eqb k k' then Some v else dict_get d' k
  end.

(** [k in d] *)
Definition dict_mem {V} (d : dict V) (k : string) : bool :=
  match dict_get d k with Some _ => true | None => false end.

(** [d.get(k, default)] *)
Definition dict_get_default {V} (d : dict V) (k : string) (default : V) : V :=
  match dict_get d k with Some v => v | None => default end.

(** [d[k] = v]: overwrite in place, or append a new key. *)
Fixpoint dict_set {V} (d : dict V) (k : string) (v : V) : dict V :=
  match d with
  | [] => [(k, v)]
  | (k', v') :: d' =>
      if String.eqb k k' then (k', v) :: d' else (k', v') :: dict_set d' k v
  end.

(** ** Strings *)

(** [sep.join(parts)] *)
Definition join (sep : string) (parts : list string) : string :=
  String.concat sep parts.

(** [s[:n]] for a literal [n >= 0]: the first [n] characters, or all of
    [s] when it is shorter. *)
Definition str_prefix (n : nat) (s : string) : string := substring 0 n s.

(** [s.rstrip(c)] for a one-character [c]. *)
Fixpoint rstrip (c : ascii) (s : string) : string :=
  match s with
  | EmptyString => EmptyString
  | String a s' =>
      match rstrip c s' with
      | EmptyString => if Ascii.eqb a c then EmptyString else String a EmptyString
      | r => String a r
      end
  end.

(** [str(i)] for an [int]. *)
Definition str_of_int (z : Z) : string := NilZero.string_of_int (Z.to_int z).

(** ** Sequences *)

(** [l[:n]] for an [int] [n]: a negative [n] counts from the end. *)
Definition slice_to {A} (l : list A) (n : Z) : list A :=
  if 0 <=? n then firstn (Z.to_nat n) l
  else firstn (Z.to_nat (Z.of_nat (List.length l) + n)) l.

(** [l.append(x)] *)
Definition list_append {A} (l : list A) (x : A) : list A := (l ++ [x])%list.

(** [enumerate(l, start)] *)
Fixpoint enumerate {A} (l : list A) (start : Z) : list (Z * A) :=
  match l with
  | [] => []
  | x :: l' => (start, x) :: enumerate l' (start + 1)
  end.

(** ** Truth values *)

Definition float_is_zero (f : spec_float) : bool :=
  match f with S754_zero _ => true | _ => false end.

(** [bool(v)] *)
Definition truthy (v : pyval) : bool :=
  match v with
  | PNone => false
  | PBool b => b
  | PInt z => negb (z =? 0)
  | PFloat f => negb (float_is_zero f)
  | PStr s => negb (String.eqb s "")
  | PList l => match l with [] => false | _ => true end
  | PDict d => match d with [] => false | _ => true end
  end.

(** [bool(s)] for [s : str | None] *)
Definition truthy_opt_str (s : option string) : bool :=
  match s with
  | Some s => negb (String.eqb s "")
  | None => false
  end.

(** [bool(l)] for [l : list | None] *)
Definition truthy_opt_list {A} (l : option (list A)) : bool :=
  match l with
  | Some (_ :: _) => true
  | _ => false
  end.

(** The value behind an [x : T | None] that is known not to be [None]. *)
Definition the_list {A} (l : option (list A)) : list A :=
  match l with Some l => l | None => [] end.
Definition the_str (s : option string) : string :=
  match s with Some s => s | None => "" end.

(** [type(v).__name__] *)
Definition type_name (v : pyval) : string :=
  match v with
  | PNone => "NoneType"
  | PBool _ => "bool"
  | PInt _ => "int"
  | PFloat _ => "float"
  | PStr _ => "str"
  | PList _ => "list"
  | PDict _ => "dict"
  end.

(** ** Exceptions *)

(** Every exception here is a subclass of [Exception].  [ValueError]
    carries its message and its [__cause__] ([raise ... from e]); the
    text of the others comes from the runtime or the library that raises
    them. *)
Inductive exn : Type :=
| ValueError (msg : string) (cause : option exn)
| TypeError
| AttributeError
| OverflowError
| TimeoutException                (* httpx: the request timed out *)
| ConnectError                    (* httpx: no connection *)
| HTTPStatusError (status : Z)    (* httpx: raise_for_status *)
| JSONDecodeError                 (* json: the body is not JSON *)
| ValidationError (input : pyval) (* pydantic: the input does not fit the model *).

(** The class of an exception, as [except] clauses and callers see it. *)
Inductive exn_kind : Type :=
| KValueError | KTypeError | KAttributeError | KOverflowError
| KTimeoutException | KConnectError | KHTTPStatusError
| KJSONDecodeError | KValidationError.

Definition kind_of (e : exn) : exn_kind :=
  match e with
  | ValueError _ _ => KValueError
  | TypeError => KTypeError
  | AttributeError => KAttributeError
  | OverflowError => KOverflowError
  | TimeoutException => KTimeoutException
  | ConnectError => KConnectError
  | HTTPStatusError _ => KHTTPStatusError
  | JSONDecodeError => KJSONDecodeError
  | ValidationError _ => KValidationError
  end.

(** [e.__cause__] *)
Definition cause_of (e : exn) : option exn :=
  match e with
  | ValueError _ c => c
  | _ => None
  end.

(** ** Effects *)

Inductive event : Type :=
| LogInfo (msg : string)
| LogError (msg : string)
| LogException (msg : string) (e : exn)
| CtxInfo (msg : string)
| HttpGet (url : string) (params : dict string) (timeout : Z).

Inductive outcome (A : Type) : Type :=
| Return (a : A)
| Raise (e : exn).
Arguments Return {A} a.
Arguments Raise {A} e.

(** A computation: the events it emitted, in order, and how it ended. *)
Definition io (A : Type) : Type := (list event * outcome A)%type.

Definition ret {A} (a : A) : io A := ([], Return a).
Definition raise {A} (e : exn) : io A := ([], Raise e).
Definition emit (ev : event) : io unit := ([ev], Return tt).

Definition bind {A B} (m : io A) (k : A -> io B) : io B :=
  match m with
  | (t, Return a) => let (t', r) := k a in ((t ++ t')%list, r)
  | (t, Raise e) => (t, Raise e)
  end.

(** [try: body  except Exception as e: handler e] *)
Definition try_except {A} (body : io A) (handler : exn -> io A) : io A :=
  match body with
  | (t, Return a) => (t, Return a)
  | (t, Raise e) => let (t', r) := handler e in ((t ++ t')%list, r)
  end.

(** [if c: body] for a statement *)
Definition when (c : bool) (body : io unit) : io unit :=
  if c then body else ret tt.

Definition trace_of {A} (m : io A) : list event := fst m.
Definition result_of {A} (m : io A) : outcome A := snd m.

Definition is_http_get (ev : event) : bool :=
  match ev with HttpGet _ _ _ => true | _ => false end.

(** The requests a trace holds. *)
Definition requests (t : list event) : list event := filter is_http_get t.

End Py.

Import Py.

Declare Scope io_scope.
Delimit Scope io_scope with io.
Notation "x <- m ;; k" := (bind m (fun x => k))
  (at level 61, m at next level, right associativity) : io_scope.
Notation "m ;;; k" := (bind m (fun _ => k))
  (at level 61, right associativity) : io_scope.

Declare Scope opt_scope.
Delimit Scope opt_scope with opt.
Notation "'let?' x := m 'in' k" :=
  (match m with Some x => k | None => None end)
  (at level 10, x name, m at level 100, k at level 200) : opt_scope.

(** The line feed of the source's ["\n"]. *)
Definition nl : string := String "010"%char EmptyString.

(* ================================================================== *)
(** * Floats of the runtime                                             *)
(* ================================================================== *)

Module PyFloat.

(** Python's [float] is IEEE 754 binary64. *)
Definition prec : Z := 53.
Definition emax : Z := 1024.

(** [float(z)] for an [int]: rounded to nearest, ties to even; [None]
    stands for [OverflowError]. *)
Definition of_int (z : Z) : option spec_float :=
  match binary_normalize prec emax z 0 false with
  | S754_infinity _ => None
  | f => Some f
  end.

(** [float(b)] for a [bool]. *)
Definition of_bool (b : bool) : spec_float :=
  if b then S754_finite false 4503599627370496%positive (-52)
  else S754_zero false.

(** The [int] a float is equal to, when there is one ([f.is_integer()],
    then [int(f)]). *)
Definition as_exact_int (f : spec_float) : option Z :=
  match f with
  | S754_zero _ => Some 0
  | S754_finite s m e =>
      let sign := if s then (-1) else 1 in
      if 0 <=? e then Some (sign * (Z.pos m * 2 ^ e))
      else if (Z.pos m) mod (2 ^ (- e)) =? 0
           then Some (sign * (Z.pos m / 2 ^ (- e)))
           else None
  | _ => None
  end.

(** [f > 0] *)
Definition gt_zero (f : spec_float) : bool :=
  match f with
  | S754_finite false _ _ => true
  | S754_infinity false => true
  | _ => false
  end.

(** The nearest integer to [m * 2^e * 100], ties to even: the digits that
    the format [.2f] prints for the magnitude [m * 2^e]. *)
Definition hundredths (m : positive) (e : Z) : Z :=
  if 0 <=? e then Z.pos m * 2 ^ e * 100
  else
    let d := 2 ^ (- e) in
    let n := Z.pos m * 100 in
    let q := n / d in
    let r := n mod d in
    match 2 * r ?= d with
    | Lt => q
    | Gt => q + 1
    | Eq => if Z.even q then q else q + 1
    end.

Definition digit (n : Z) : string :=
  String (ascii_of_nat (48 + Z.to_nat (n mod 10))) EmptyString.

(** A count of hundredths as [units.dd]. *)
Definition fixed2 (h : Z) : string :=
  str_of_int (h / 100) ++ "." ++ digit (h / 10) ++ digit h.

(** [format(f, ".2f")] *)
Definition format_2f (f : spec_float) : string :=
  match f with
  | S754_nan => "nan"
  | S754_infinity s => if s then "-inf" else "inf"
  | S754_zero s => (if s then "-" else "") ++ fixed2 0
  | S754_finite s m e => (if s then "-" else "") ++ fixed2 (hundredths m e)
  end.

End PyFloat.

(* ================================================================== *)
(** * searxng_client.py                                                 *)
(* ================================================================== *)

Module Client.

(** ** The models *)

(** [class SearxngResult(BaseModel)] *)
Record SearxngResult : Type := {
  url : string;
  title : string;
  content : string;
  thumbnail : pyval;
  engine : string;
  template : string;
  parsed_url : list string;
  img_src : string;
  priority : string;
  engines : list string;
  positions : list Z;
  score : spec_float;
  category : string;
  published_date : pyval
}.

(** [class SearxngResponse(BaseModel)] *)
Record SearxngResponse : Type := {
  query : string;
  number_of_results : Z;
  results : list SearxngResult
}.

(** ** Validation of a model's input

    The models keep pydantic's defaults: validation is lax (a value of
    another JSON type is accepted when it converts without loss), keys
    the model does not declare are ignored, and a field declared with
    [Field(...)] is required under its alias.  The inputs are what
    [response.json()] produces. *)

(** pydantic's lax readings of a value of one number type as another:
    a numeric string as an [int] or as a [float], a whole [float] as an
    [int]. *)
Record conversions : Type := {
  str_as_int : string -> option Z;
  str_as_float : string -> option spec_float;
  float_as_int : spec_float -> option Z
}.

Section Validation.

Variable lax : conversions.

(** [str] *)
Definition validate_str (v : pyval) : option string :=
  match v with
  | PStr s => Some s
  | _ => None
  end.

(** [int] *)
Definition validate_int (v : pyval) : option Z :=
  match v with
  | PInt z => Some z
  | PBool b => Some (Z.b2z b)
  | PFloat f => float_as_int lax f
  | PStr s => str_as_int lax s
  | _ => None
  end.

(** [float] *)
Definition validate_float (v : pyval) : option spec_float :=
  match v with
  | PFloat f => Some f
  | PInt z => PyFloat.of_int z
  | PBool b => Some (PyFloat.of_bool b)
  | PStr s => str_as_float lax s
  | _ => None
  end.

(** [Any] *)
Definition validate_any (v : pyval) : option pyval := Some v.

(** The items of a [list[T]], in order; one bad item fails the list. *)
Fixpoint validate_items {A} (item : pyval -> option A) (l : list pyval)
  : option (list A) :=
  match l with
  | [] => Some []
  | v :: l' =>
      match item v, validate_items item l' with
      | Some a, Some r => Some (a :: r)
      | _, _ => None
      end
  end.

(** [list[T]] *)
Definition validate_list {A} (item : pyval -> option A) (v : pyval)
  : option (list A) :=
  match v with
  | PList l => validate_items item l
  | _ => None
  end.

(** A field declared [Field(..., alias=a)]. *)
Definition required {A} (d : dict pyval) (a : string)
  (validator : pyval -> option A) : option A :=
  match dict_get d a with
  | Some v => validator v
  | None => None
  end.

(** A field declared [Field(None, alias=a)]. *)
Definition defaulted {A} (d : dict pyval) (a : string)
  (validator : pyval -> option A) (default : A) : option A :=
  match dict_get d a with
  | Some v => validator v
  | None => Some default
  end.

Open Scope opt_scope.

(** An item of [results: list[SearxngResult]]. *)
Definition validate_result (v : pyval) : option SearxngResult :=
  match v with
  | PDict d =>
      let? url := required d "url" validate_str in
      let? title := required d "title" validate_str in
      let? content := required d "content" validate_str in
      let? thumbnail := defaulted d "thumbnail" validate_any PNone in
      let? engine := required d "engine" validate_str in
      let? template := required d "template" validate_str in
      let? parsed_url := required d "parsed_url" (validate_list validate_str) in
      let? img_src := required d "img_src" validate_str in
      let? priority := required d "priority" validate_str in
      let? engines := required d "engines" (validate_list validate_str) in
      let? positions := required d "positions" (validate_list validate_int) in
      let? score := required d "score" validate_float in
      let? category := required d "category" validate_str in
      let? published_date := defaulted d "publishedDate" validate_any PNone in
      Some {| url := url; title := title; content := content;
              thumbnail := thumbnail; engine := engine;
              template := template; parsed_url := parsed_url;
              img_src := img_src; priority := priority;
              engines := engines; positions := positions;
              score := score; category := category;
              published_date := published_date |}
  | _ => None
  end.

(** The keyword arguments of [SearxngResponse(...)]. *)
Definition validate_response (kwargs : dict pyval) : option SearxngResponse :=
  let? query := required kwargs "query" validate_str in
  let? number_of_results := required kwargs "number_of_results" validate_int in
  let? results := required kwargs "results" (validate_list validate_result) in
  Some {| query := query; number_of_results := number_of_results;
          results := results |}.

Close Scope opt_scope.

(** The call [SearxngResponse] with [json_response] unpacked as its
    keyword arguments: unpacking wants a mapping. *)
Definition SearxngResponse_init (json_response : pyval)
  : io SearxngResponse :=
  match json_response with
  | PDict kwargs =>
      match validate_response kwargs with
      | Some r => ret r
      | None => raise (ValidationError json_response)
      end
  | _ => raise TypeError
  end.

End Validation.

(** ** httpx, as the client uses it *)

(** What [response] offers: [status_code], [text], and [json()], whose
    value is [None] here when the body does not decode. *)
Record Response : Type := {
  status_code : Z;
  text : string;
  json : option pyval
}.

(** How one GET ends. *)
Inductive reply : Type :=
| Replied (r : Response)
| TimedOut
| ConnectionFailed.

(** The upstream instance: what it answers to a GET of [url] with
    [params] under [timeout]. *)
Definition upstream : Type := string -> dict string -> Z -> reply.

(** [await client.get(url, params=params, timeout=timeout)] *)
Definition client_get (up : upstream) (url : string) (params : dict string)
  (timeout : Z) : io Response :=
  (emit (HttpGet url params timeout) ;;;
   match up url params timeout with
   | Replied r => ret r
   | TimedOut => raise TimeoutException
   | ConnectionFailed => raise ConnectError
   end)%io.

(** [response.is_success] *)
Definition is_success (r : Response) : bool :=
  (200 <=? status_code r) && (status_code r <=? 299).

(** [response.raise_for_status()] *)
Definition raise_for_status (r : Response) : io unit :=
  if is_success r then ret tt else raise (HTTPStatusError (status_code r)).

(** [response.json()] *)
Definition response_json (r : Response) : io pyval :=
  match json r with
  | Some v => ret v
  | None => raise JSONDecodeError
  end.

(** ** The client *)

(** [class SearxNGClient]: the attributes [__init__] sets. *)
Record SearxNGClient : Type := {
  base_url : string;
  timeout : Z
}.

(** [SearxNGClient.__init__] *)
Definition SearxNGClient_init (base_url : string) (timeout : Z)
  : SearxNGClient :=
  {| base_url := rstrip "/"%char base_url; timeout := timeout |}.

Section Search.

Variable lax : conversions.

(** [str(e)] of an exception whose text the runtime or a library
    writes. *)
Variable exc_text : exn -> string.

(** [str(e)] *)
Definition exc_str (e : exn) : string :=
  match e with
  | ValueError msg _ => msg
  | _ => exc_text e
  end.

(** The upstream instance behind [base_url]. *)
Variable up : upstream.

(** The request parameters [search] builds.  Each [if x:] tests the
    truth value of [x]: [None], an empty list and an empty string are
    all false. *)
Definition search_params (query : string) (categories : option (list string))
  (language : option string) (time_range : option string) : dict string :=
  let params := [("q", query); ("format", "json")] in
  let params :=
    if truthy_opt_list categories
    then dict_set params "categories" (join "," (the_list categories))
    else params in
  let params :=
    if truthy_opt_str time_range
    then dict_set params "time_range" (the_str time_range)
    else params in
  let params :=
    if truthy_opt_str language
    then dict_set params "language" (the_str language)
    else params in
  params.

(** [SearxNGClient.search] *)
Definition search (self : SearxNGClient) (query : string)
  (categories : option (list string)) (language : option string)
  (time_range : option string) : io SearxngResponse :=
  let params := search_params query categories language time_range in
  try_except
    (response <- client_get up (base_url self ++ "/search") params
                   (timeout self) ;;
     raise_for_status response ;;;
     emit (LogInfo ("Response: " ++ str_prefix 100 (text response) ++ "...")) ;;;
     json_response <- response_json response ;;
     SearxngResponse_init lax json_response)%io
    (fun e =>
       (emit (LogException "Unexpected error occurred" e) ;;;
        raise (ValueError ("Error during search: " ++ exc_str e) (Some e)))%io).

End Search.

(** ** The loose formatter *)

(** [for x in l: s = body s x] *)
Fixpoint for_each {A S} (l : list A) (body : S -> A -> io S) (s : S) : io S :=
  match l with
  | [] => ret s
  | x :: l' => (s' <- body s x ;; for_each l' body s')%io
  end.

(** [iter(v)]: what a [for] loop over [v] visits. *)
Definition iterate (v : pyval) : io (list pyval) :=
  match v with
  | PList l => ret l
  | PDict d => ret (map (fun kv => PStr (fst kv)) d)
  | PStr s => ret (map (fun c => PStr (String c EmptyString)) (list_ascii_of_string s))
  | _ => raise TypeError
  end.

(** [v > 0] *)
Definition gt_zero (v : pyval) : io bool :=
  match v with
  | PInt z => ret (0 <? z)
  | PBool b => ret b
  | PFloat f => ret (PyFloat.gt_zero f)
  | _ => raise TypeError
  end.

(** [format(v, ".2f")] *)
Definition format_2f (v : pyval) : io string :=
  match v with
  | PFloat f => ret (PyFloat.format_2f f)
  | PInt z =>
      match PyFloat.of_int z with
      | Some f => ret (PyFloat.format_2f f)
      | None => raise OverflowError
      end
  | PBool b => ret (PyFloat.format_2f (PyFloat.of_bool b))
  | PStr _ =>
      raise (ValueError "Unknown format code 'f' for object of type 'str'" None)
  | _ => raise TypeError
  end.

Section FormatResults.

(** [repr(v)], used for the values whose [str] is their [repr]. *)
Variable py_repr : pyval -> string.

(** [str(v)], which is what an f-string field without a format
    specification shows. *)
Definition py_str (v : pyval) : string :=
  match v with
  | PStr s => s
  | PNone => "None"
  | PBool b => if b then "True" else "False"
  | PInt z => str_of_int z
  | _ => py_repr v
  end.

(** The body of the loop over [enumerate(results, 1)]. *)
Definition format_one (formatted_results : list string) (ir : Z * pyval)
  : io (list string) :=
  let (i, result) := ir in
  match result with
  | PDict result =>
      let title := dict_get_default result "title" (PStr "No title") in
      let url := dict_get_default result "url" (PStr "No URL") in
      let content := dict_get_default result "content" (PStr "No description") in
      let result_text :=
        str_of_int i ++ ". " ++ py_str title ++ nl ++
        "   URL: " ++ py_str url ++ nl ++
        "   " ++ py_str content in
      let result_text :=
        match dict_get result "publishedDate" with
        | Some d => result_text ++ nl ++ "   Date: " ++ py_str d
        | None => result_text
        end in
      (result_text <-
         match dict_get result "score" with
         | Some s =>
             (shown <- format_2f s ;;
              ret (result_text ++ nl ++ "   Score: " ++ shown))
         | None => ret result_text
         end ;;
       ret (list_append formatted_results result_text))%io
  | _ => raise AttributeError   (* [result.get] *)
  end.

(** [SearxNGClient.format_results] *)
Definition format_results (data : dict pyval) : io string :=
  let results := dict_get_default data "results" (PList []) in
  if negb (truthy results) then ret "No results found."
  else
    let search_info := [] in
    let search_info :=
      match dict_get data "query" with
      | Some q => list_append search_info ("Query: " ++ py_str q)
      | None => search_info
      end in
    (search_info <-
       match dict_get data "number_of_results" with
       | Some n =>
           (positive <- gt_zero n ;;
            ret (if positive
                 then list_append search_info
                        ("Found approximately " ++ py_str n ++ " results")
                 else search_info))
       | None => ret search_info
       end ;;
     items <- iterate results ;;
     formatted_results <- for_each (enumerate items 1) format_one [] ;;
     let search_info_text := join nl search_info in
     let results_text := join (nl ++ nl) formatted_results in
     ret (search_info_text ++ nl ++ nl ++ results_text))%io.

End FormatResults.

End Client.

(* ================================================================== *)
(** * server.py                                                         *)
(* ================================================================== *)

Module Server.

Import Client.

(** [Literal["day", "week", "month", "year"]] *)
Inductive TimeRange : Type := Day | Week | Month | Year.

Definition time_range_str (t : TimeRange) : string :=
  match t with
  | Day => "day"
  | Week => "week"
  | Month => "month"
  | Year => "year"
  end.

(** [Literal["text", "json"]] *)
Inductive ResultFormat : Type := Text | Json.

Definition result_format_str (f : ResultFormat) : string :=
  match f with
  | Text => "text"
  | Json => "json"
  end.

(** [str | list[SearxngResult]] *)
Inductive output : Type :=
| Str (s : string)
| Results (l : list SearxngResult).

(** The host's [Context]; only its presence matters to the tool. *)
Inductive Context : Type := HostContext.

(** [bool(ctx)] for [ctx : Context | None] *)
Definition has_ctx (ctx : option Context) : bool :=
  match ctx with Some _ => true | None => false end.

(** What [server.py] reads of [Settings()]. *)
Record Settings : Type := {
  searxng_url : string;
  settings_timeout : Z;
  default_result_count : Z;
  default_language : string;
  default_format : ResultFormat;
  log_level : string
}.

Section Tool.

Variable lax : conversions.
Variable exc_text : exn -> string.
Variable up : upstream.
Variable settings : Settings.

(** [searxng_client = SearxNGClient(settings.searxng_url, settings.timeout)] *)
Definition searxng_client : SearxNGClient :=
  SearxNGClient_init (searxng_url settings) (settings_timeout settings).

(** The loop of the text branch over [enumerate(results, 1)]. *)
Definition format_text_one (formatted_results : list string)
  (ir : Z * SearxngResult) : io (list string) :=
  let (i, result) := ir in
  let title := title result in
  let url := url result in
  let content := str_prefix 200 (content result) ++ "..." in
  ret (list_append formatted_results
         (str_of_int i ++ ". [" ++ title ++ "](" ++ url ++ ")" ++ nl ++
          "   " ++ content)).

(** [web_search] *)
Definition web_search (query : string) (result_count : Z)
  (categories : option (list string)) (language : option string)
  (time_range : option TimeRange) (result_format : ResultFormat)
  (ctx : option Context) : io output :=
  try_except
    (when (has_ctx ctx) (emit (CtxInfo "Starting web search...")) ;;;
     (if result_count <=? 0
      then raise (ValueError "result_count must be greater than 0" None)
      else ret tt) ;;;
     response <- search lax exc_text up searxng_client
                   query categories language
                   (option_map time_range_str time_range) ;;
     let results := slice_to (results response) result_count in
     if String.eqb (result_format_str result_format) "json"
     then ret (Results results)
     else
       (formatted_results <-
          for_each (enumerate results 1) format_text_one [] ;;
        ret (Str (join (nl ++ nl) formatted_results))))%io
    (fun e =>
       (emit (LogError ("Error during web search: " ++ exc_str exc_text e)) ;;;
        when (has_ctx ctx)
          (emit (CtxInfo ("Error during search: " ++ exc_str exc_text e))) ;;;
        raise e)%io).

End Tool.

End Server.

(* ================================================================== *)
(** * Sample inputs                                                     *)
(* ================================================================== *)

Module Sample.

Import Client Server.

(** Conversions for the samples, which hold no numeric strings: whole
    floats are read as integers, strings are not read as numbers. *)
Definition lax : conversions :=
  {| str_as_int := fun _ => None;
     str_as_float := fun _ => None;
     float_as_int := PyFloat.as_exact_int |}.

(** Texts for the exceptions of the samples. *)
Definition exc_text (e : exn) : string :=
  match e with
  | TimeoutException => "timed out"
  | ConnectError => "All connection attempts failed"
  | HTTPStatusError status => "status " ++ str_of_int status
  | JSONDecodeError => "Expecting value: line 1 column 1 (char 0)"
  | ValidationError _ => "validation error for SearxngResponse"
  | TypeError => "argument must be a mapping"
  | AttributeError => "object has no attribute"
  | OverflowError => "int too large to convert to float"
  | ValueError msg _ => msg
  end.

(** The samples show only strings, integers and [None]; other values
    are shown by the name of their type. *)
Definition py_repr (v : pyval) : string := "<" ++ type_name v ++ ">".

Definition settings : Settings :=
  {| searxng_url := "http://localhost:8080/";
     settings_timeout := 10;
     default_result_count := 10;
     default_language := "all";
     default_format := Text;
     log_level := "ERROR" |}.

Definition client : SearxNGClient := searxng_client settings.

(** One upstream hit, as decoded JSON. *)
Definition hit (title url content : string) (positions : list pyval)
  : dict pyval :=
  [("url", PStr url); ("title", PStr title); ("content", PStr content);
   ("engine", PStr "duckduckgo"); ("template", PStr "default.html");
   ("parsed_url", PList [PStr "http"; PStr "a"]);
   ("img_src", PStr ""); ("priority", PStr "");
   ("engines", PList [PStr "duckduckgo"]);
   ("positions", PList positions);
   ("score", PFloat (S754_finite false 4503599627370496 (-52)));
   ("category", PStr "general")].

Definition body_of (items : list pyval) : pyval :=
  PDict [("query", PStr "cats"); ("number_of_results", PInt 2);
         ("results", PList items)].

Definition ok (body : pyval) : Response :=
  {| status_code := 200; text := "{...}"; json := Some body |}.

(** An upstream that answers every request with [r]. *)
Definition always (r : reply) : upstream := fun _ _ _ => r.

(** [n] times the letter x. *)
Fixpoint xs (n : nat) : string :=
  match n with
  | O => ""
  | S n' => String "x"%char (xs n')
  end.

Definition two_cats : pyval :=
  body_of [PDict (hit "Cat facts" "http://a" (xs 250) [PInt 1]);
           PDict (hit "Cat pics" "http://b" "short" [PInt 2])].

Definition no_hits : pyval := body_of [].

(** Data for the loose formatter: a dated hit with a score of 0.375 and
    a bare one. *)
Definition loose_items : list pyval :=
  [PDict [("title", PStr "Cat facts"); ("url", PStr "http://a");
          ("publishedDate", PStr "2024-01-01");
          ("score", PFloat (S754_finite false 3 (-3)))];
   PDict [("content", PStr "short")]].

Definition loose_data : dict pyval :=
  [("query", PStr "cats"); ("number_of_results", PInt 2);
   ("results", PList loose_items)].

(** A hit whose score is a text. *)
Definition text_scored : dict pyval :=
  [("results", PList [PDict [("title", PStr "Cat facts");
                             ("score", PStr "0.9")]])].

(** The same hit with a JSON [true] where [positions] declares integers. *)
Definition flagged_cat : pyval :=
  body_of [PDict (hit "Cat facts" "http://a" "x" [PBool true])].

(** A hit without [engine]. *)
Definition engineless : dict pyval :=
  [("url", PStr "http://a"); ("title", PStr "Cat facts");
   ("content", PStr "x"); ("template", PStr "default.html");
   ("parsed_url", PList [PStr "http"; PStr "a"]);
   ("img_src", PStr ""); ("priority", PStr "");
   ("engines", PList [PStr "duckduckgo"]);
   ("positions", PList [PInt 1]);
   ("score", PFloat (S754_finite false 4503599627370496 (-52)));
   ("category", PStr "general")].

(** What validation makes of a [hit]. *)
Definition validated (title url content : string) (positions : list Z)
  : SearxngResult :=
  {| Client.url := url; Client.title := title; Client.content := content;
     thumbnail := PNone; engine := "duckduckgo";
     template := "default.html"; parsed_url := ["http"; "a"];
     img_src := ""; priority := ""; engines := ["duckduckgo"];
     Client.positions := positions;
     score := S754_finite false 4503599627370496 (-52);
     category := "general"; published_date := PNone |}.

Definition response_of (rs : list SearxngResult) : SearxngResponse :=
  {| query := "cats"; number_of_results := 2; results := rs |}.

Definition cat_facts : SearxngResult :=
  validated "Cat facts" "http://a" (xs 250) [1].
Definition cat_pics : SearxngResult := validated "Cat pics" "http://b" "short" [2].

(** A body that is a list, and one without [number_of_results]. *)
Definition list_body : pyval := PList [].
Definition no_estimate : dict pyval :=
  [("query", PStr "cats"); ("results", PList [])].

(** Data whose estimate is a text. *)
Definition text_estimate : dict pyval :=
  [("number_of_results", PStr "many"); ("results", PList [PDict []])].

(** The events of a successful call for ["cats"] in language ["all"]. *)
Definition cats_request (extra : dict string) : event :=
  HttpGet "http://localhost:8080/search"
    (("q", "cats") :: ("format", "json") :: extra) 10.

Definition cats_trace (extra : dict string) : list event :=
  [cats_request extra; LogInfo "Response: {...}..."].

End Sample.

(* ================================================================== *)
(** * What the claims speak of                                          *)
(* ================================================================== *)

Module Spec.

Import Client Server.

(** The JSON type a field of [SearxngResult] declares. *)
Inductive field_type : Type :=
| TStr
| TInt
| TFloat
| TList (item : field_type).

(** The fields [SearxngResult] declares with [Field(...)]. *)
Definition required_fields : list (string * field_type) :=
  [("url", TStr); ("title", TStr); ("content", TStr); ("engine", TStr);
   ("template", TStr); ("parsed_url", TList TStr); ("img_src", TStr);
   ("priority", TStr); ("engines", TList TStr); ("positions", TList TInt);
   ("score", TFloat); ("category", TStr)].

(** A value is of the declared type: a string for [str], a whole number
    for [int], a number for [float], a list of well-typed items for a
    list. *)
Fixpoint has_type (t : field_type) (v : pyval) : bool :=
  match t, v with
  | TStr, PStr _ => true
  | TInt, PInt _ => true
  | TFloat, PFloat _ => true
  | TFloat, PInt _ => true
  | TList t', PList l => forallb (has_type t') l
  | _, _ => false
  end.

(** How an upstream interaction fails, and the exception that reports
    it. *)
Inductive upstream_failure : reply -> exn -> Prop :=
| timeout_failure :
    upstream_failure TimedOut TimeoutException
| connection_failure :
    upstream_failure ConnectionFailed ConnectError
| status_failure r :
    status_code r < 200 \/ 299 < status_code r ->
    upstream_failure (Replied r) (HTTPStatusError (status_code r))
| decode_failure r :
    200 <= status_code r <= 299 -> json r = None ->
    upstream_failure (Replied r) JSONDecodeError.

Section Conversions.

Variable lax : conversions.

(** A value that lax validation cannot turn into the declared type. *)
Fixpoint unconvertible (t : field_type) (v : pyval) : Prop :=
  match t with
  | TStr =>
      match v with PStr _ => False | _ => True end
  | TInt =>
      match v with
      | PInt _ | PBool _ => False
      | PFloat f => float_as_int lax f = None
      | PStr s => str_as_int lax s = None
      | _ => True
      end
  | TFloat =>
      match v with
      | PFloat _ | PBool _ => False
      | PInt z => PyFloat.of_int z = None
      | PStr s => str_as_float lax s = None
      | _ => True
      end
  | TList t' =>
      match v with
      | PList l => exists x, In x l /\ unconvertible t' x
      | _ => True
      end
  end.

(** An item of [results] that is no mapping, lacks a required field,
    or holds an unconvertible value under one. *)
Definition malformed (item : pyval) : Prop :=
  match item with
  | PDict d =>
      exists f t, In (f, t) required_fields /\
        match dict_get d f with
        | None => True
        | Some v => unconvertible t v
        end
  | _ => True
  end.

(** The whole number lax validation reads a value as: an integer as
    itself, [true] and [false] as 1 and 0, a float or a string as the
    conversions have it. *)
Inductive reads_as_int : pyval -> Z -> Prop :=
| int_read z : reads_as_int (PInt z) z
| true_read_as_int : reads_as_int (PBool true) 1
| false_read_as_int : reads_as_int (PBool false) 0
| float_read_as_int f z :
    float_as_int lax f = Some z -> reads_as_int (PFloat f) z
| str_read_as_int s z :
    str_as_int lax s = Some z -> reads_as_int (PStr s) z.

(** The float lax validation reads a value as: a float as itself, an
    integer as the nearest float when there is one, [true] and [false]
    as 1.0 and 0.0, a string as the conversions have it. *)
Inductive reads_as_float : pyval -> spec_float -> Prop :=
| float_read f : reads_as_float (PFloat f) f
| int_read_as_float z f :
    PyFloat.of_int z = Some f -> reads_as_float (PInt z) f
| true_read_as_float :
    reads_as_float (PBool true) (S754_finite false 4503599627370496 (-52))
| false_read_as_float :
    reads_as_float (PBool false) (S754_zero false)
| str_read_as_float s f :
    str_as_float lax s = Some f -> reads_as_float (PStr s) f.

(** The record holds the strings of the mapping as they are. *)
Definition verbatim (d : dict pyval) (r : SearxngResult) : Prop :=
  dict_get d "url" = Some (PStr (url r)) /\
  dict_get d "title" = Some (PStr (title r)) /\
  dict_get d "content" = Some (PStr (content r)) /\
  dict_get d "engine" = Some (PStr (engine r)) /\
  dict_get d "template" = Some (PStr (template r)) /\
  dict_get d "img_src" = Some (PStr (img_src r)) /\
  dict_get d "priority" = Some (PStr (priority r)) /\
  dict_get d "category" = Some (PStr (category r)) /\
  dict_get d "parsed_url" = Some (PList (map PStr (parsed_url r))) /\
  dict_get d "engines" = Some (PList (map PStr (engines r))) /\
  thumbnail r = dict_get_default d "thumbnail" PNone /\
  published_date r = dict_get_default d "publishedDate" PNone.

(** The record an item of [results] is accepted as: the item is a
    mapping, the record holds its strings as they are, its positions
    each read as a whole number, and its score read as a float. *)
Definition accepted_as (item : pyval) (r : SearxngResult) : Prop :=
  exists d,
    item = PDict d /\
    verbatim d r /\
    (exists ps, dict_get d "positions" = Some (PList ps) /\
                Forall2 reads_as_int ps (positions r)) /\
    (exists sv, dict_get d "score" = Some sv /\ reads_as_float sv (score r)).

End Conversions.

Section Outcomes.

Variable exc_text : exn -> string.

(** The one GET of a call. *)
Definition request_of (self : SearxNGClient) (query : string)
  (categories : option (list string)) (language time_range : option string)
  : event :=
  HttpGet (base_url self ++ "/search")
    (search_params query categories language time_range) (timeout self).

(** How [search] ends after the events [t] when [e] is raised inside
    its [try]. *)
Definition failed_with (t : list event) (e : exn) : io SearxngResponse :=
  ((t ++ [LogException "Unexpected error occurred" e])%list,
   Raise (ValueError ("Error during search: " ++ exc_str exc_text e) (Some e))).

(** The record [search] logs of a response. *)
Definition response_logged (r : Response) : event :=
  LogInfo ("Response: " ++ str_prefix 100 (text r) ++ "...").

End Outcomes.

(** ** The text rendering, in the words of its description *)

(** The first [n] characters of [s]. *)
Definition first_chars (n : nat) (s : string) : string :=
  string_of_list_ascii (firstn n (list_ascii_of_string s)).

(** The line ["{i}. [{title}]({url})"]. *)
Definition title_line (i : Z) (r : SearxngResult) : string :=
  str_of_int i ++ ". [" ++ title r ++ "](" ++ url r ++ ")".

(** The indented line: three spaces, the first 200 characters of the
    content, the ellipsis. *)
Definition excerpt_line (r : SearxngResult) : string :=
  "   " ++ first_chars 200 (content r) ++ "...".

(** What the result at position [i] contributes. *)
Definition text_entry (i : Z) (r : SearxngResult) : string :=
  title_line i r ++ nl ++ excerpt_line r.

(** The items of [l] paired off with the positions [i], [i+1], ... *)
Fixpoint numbered {A B} (f : Z -> A -> B) (i : Z) (l : list A) : list B :=
  match l with
  | [] => []
  | x :: l' => f i x :: numbered f (i + 1) l'
  end.

(** Entries with a blank line between neighbours and nothing after the
    last. *)
Fixpoint blank_line_joined (entries : list string) : string :=
  match entries with
  | [] => ""
  | e :: es =>
      match es with
      | [] => e
      | _ :: _ => e ++ nl ++ nl ++ blank_line_joined es
      end
  end.

(** What the tool returns for the selected results. *)
Definition rendered (result_format : ResultFormat) (selected : list SearxngResult)
  : output :=
  match result_format with
  | Json => Results selected
  | Text => Str (blank_line_joined (numbered text_entry 1 selected))
  end.

(** ** The loose formatter, in the words of its description *)

(** The number a score is shown as, when it is one that fits a float. *)
Definition score_value (v : pyval) : option spec_float :=
  match v with
  | PFloat f => Some f
  | PInt z => PyFloat.of_int z
  | PBool b => Some (PyFloat.of_bool b)
  | _ => None
  end.

Definition is_number (v : pyval) : bool :=
  match v with
  | PInt _ | PFloat _ | PBool _ => true
  | _ => false
  end.

(** A number above zero. *)
Definition is_positive (v : pyval) : bool :=
  match v with
  | PInt z => 0 <? z
  | PBool b => b
  | PFloat f => PyFloat.gt_zero f
  | _ => false
  end.

Definition is_digit (a : ascii) : Prop := (48 <= nat_of_ascii a <= 57)%nat.

(** A text that ends in a point and two digits. *)
Definition two_decimals (s : string) : Prop :=
  exists whole d1 d2,
    s = whole ++ "." ++ String d1 (String d2 EmptyString) /\
    is_digit d1 /\ is_digit d2.

Definition is_finite (f : spec_float) : bool :=
  match f with
  | S754_zero _ | S754_finite _ _ _ => true
  | _ => false
  end.

Section Loose.

Variable py_repr : pyval -> string.

(** The field [k] of [d] as text, or the placeholder when [d] has no
    such key. *)
Definition shown (d : dict pyval) (k placeholder : string) : string :=
  match dict_get d k with
  | Some v => py_str py_repr v
  | None => placeholder
  end.

(** The query, when the key is there. *)
Definition query_lines (data : dict pyval) : list string :=
  match dict_get data "query" with
  | Some q => ["Query: " ++ py_str py_repr q]
  | None => []
  end.

(** The estimate, when the key is there and the number is positive. *)
Definition estimate_lines (data : dict pyval) : list string :=
  match dict_get data "number_of_results" with
  | Some n =>
      if is_positive n
      then ["Found approximately " ++ py_str py_repr n ++ " results"]
      else []
  | None => []
  end.

(** The header, one line for each. *)
Definition header (data : dict pyval) : string :=
  join nl (query_lines data ++ estimate_lines data)%list.

Definition date_line (d : dict pyval) : string :=
  match dict_get d "publishedDate" with
  | Some v => nl ++ "   Date: " ++ py_str py_repr v
  | None => ""
  end.

Definition score_line (d : dict pyval) : string :=
  match dict_get d "score" with
  | Some v =>
      match score_value v with
      | Some f => nl ++ "   Score: " ++ PyFloat.format_2f f
      | None => ""
      end
  | None => ""
  end.

(** What the result at position [i] contributes. *)
Definition loose_entry (i : Z) (item : pyval) : string :=
  match item with
  | PDict d =>
      str_of_int i ++ ". " ++ shown d "title" "No title" ++ nl ++
      "   URL: " ++ shown d "url" "No URL" ++ nl ++
      "   " ++ shown d "content" "No description" ++
      date_line d ++ score_line d
  | _ => ""
  end.

(** A result the formatter can show: a mapping whose score, if any, is
    a number that fits a float. *)
Definition showable (item : pyval) : Prop :=
  match item with
  | PDict d => forall v, dict_get d "score" = Some v -> score_value v <> None
  | _ => False
  end.

(** Data the formatter can show: a non-empty list of showable results,
    and a number for the estimate if there is one. *)
Definition presentable (data : dict pyval) (items : list pyval) : Prop :=
  dict_get data "results" = Some (PList items) /\
  items <> [] /\
  (forall n, dict_get data "number_of_results" = Some n -> is_number n = true) /\
  Forall showable items.

End Loose.

(** The notice a call starts with when the host gave a context. *)
Definition start_notice (ctx : option Context) : list event :=
  if has_ctx ctx then [CtxInfo "Starting web search..."] else [].

(** The records of a failure that [web_search] leaves before it
    re-raises: text [msg], the context told when there is one. *)
Definition failure_notices (ctx : option Context) (msg : string) : list event :=
  (LogError ("Error during web search: " ++ msg) ::
   (if has_ctx ctx then [CtxInfo ("Error during search: " ++ msg)] else []))%list.

End Spec.

(* ================================================================== *)
(** * What the further facts speak of                                   *)
(* ================================================================== *)

Module Cover.

Import Client Server Spec.

(** [k] times the character [c]. *)
Fixpoint rep (c : ascii) (k : nat) : string :=
  match k with
  | O => EmptyString
  | S k' => String c (rep c k')
  end.

(** The keys validation reads of an item of [results]: the aliases of
    the fields of [SearxngResult]. *)
Definition result_keys : list string :=
  ["url"; "title"; "content"; "thumbnail"; "engine"; "template";
   "parsed_url"; "img_src"; "priority"; "engines"; "positions"; "score";
   "category"; "publishedDate"].

(** The keys validation reads of the body: the fields of
    [SearxngResponse]. *)
Definition response_keys : list string :=
  ["query"; "number_of_results"; "results"].

(** The parameters a request can hold. *)
Definition param_keys : list string :=
  ["q"; "format"; "categories"; "time_range"; "language"].

Definition is_ctx_info (ev : event) : bool :=
  match ev with CtxInfo _ => true | _ => false end.

(** The notices a trace sends to the host's context. *)
Definition notices (t : list event) : list event := filter is_ctx_info t.

(** The trace without its notices. *)
Definition silent (t : list event) : list event :=
  filter (fun ev => negb (is_ctx_info ev)) t.

Definition is_log_error (ev : event) : bool :=
  match ev with LogError _ => true | _ => false end.

(** The records [logger.error] leaves in a trace. *)
Definition errors_logged (t : list event) : list event :=
  filter is_log_error t.



(** Whether a text holds a line feed. *)
Definition has_nl (s : string) : bool :=
  existsb (Ascii.eqb "010"%char) (list_ascii_of_string s).

(** The exception the loop of [format_results] raises at an item, if
    any: [result.get] on what is no mapping, or the format [.2f] on a
    score that is no number or an integer beyond float range. *)
Definition item_error (item : pyval) : option exn :=
  match item with
  | PDict d =>
      match dict_get d "score" with
      | Some (PStr _) =>
          Some (ValueError "Unknown format code 'f' for object of type 'str'"
                  None)
      | Some (PInt z) =>
          match PyFloat.of_int z with
          | None => Some OverflowError
          | Some _ => None
          end
      | Some PNone | Some (PList _) | Some (PDict _) => Some TypeError
      | Some (PBool _) | Some (PFloat _) | None => None
      end
  | _ => Some AttributeError
  end.

End Cover.

(* ================================================================== *)
(** * Facts about the runtime                                           *)
(* ================================================================== *)

Section Runtime_facts.

Lemma bind_ret {A B} (a : A) (k : A -> io B) : bind (ret a) k = k a.
Proof. unfold bind, ret. destruct (k a). reflexivity. Qed.

Lemma bind_raise {A B} (e : exn) (k : A -> io B) :
  bind (raise e) k = raise e.
Proof. reflexivity. Qed.

Lemma bind_returned {A B} (t : list event) (a : A) (k : A -> io B) :
  bind (t, Return a) k = ((t ++ trace_of (k a))%list, result_of (k a)).
Proof. unfold bind, trace_of, result_of. destruct (k a). reflexivity. Qed.

Lemma try_returned {A} (t : list event) (a : A) (h : exn -> io A) :
  try_except (t, Return a) h = (t, Return a).
Proof. reflexivity. Qed.

Lemma try_raised {A} (t : list event) (e : exn) (h : exn -> io A) :
  try_except (t, Raise e) h = ((t ++ trace_of (h e))%list, result_of (h e)).
Proof. unfold try_except, trace_of, result_of. destruct (h e). reflexivity. Qed.

Lemma str_app_assoc (a b c : string) : (a ++ b) ++ c = a ++ b ++ c.
Proof. induction a as [|x a IH]; simpl; [|rewrite IH]; reflexivity. Qed.

Lemma str_app_nil_r (a : string) : a ++ "" = a.
Proof. induction a as [|x a IH]; simpl; [|rewrite IH]; reflexivity. Qed.

Lemma requests_app (t t' : list event) :
  requests (t ++ t') = (requests t ++ requests t')%list.
Proof. apply filter_app. Qed.

Lemma slice_to_pos {A} (l : list A) (n : Z) :
  0 <= n -> slice_to l n = firstn (Z.to_nat n) l.
Proof.
  intros Hn. unfold slice_to.
  destruct (0 <=? n) eqn:E; [reflexivity | apply Z.leb_gt in E; lia].
Qed.

(** The runtime model at a few inputs. *)

Example rstrip_slashes : rstrip "/"%char "http://a.b///" = "http://a.b".
Proof. reflexivity. Qed.

Example slice_to_negative : slice_to [1; 2; 3; 4] (-1) = [1; 2; 3].
Proof. reflexivity. Qed.

Example slice_to_beyond : slice_to [1; 2] 5 = [1; 2].
Proof. reflexivity. Qed.

Example format_2f_tie_to_even :
  PyFloat.format_2f (S754_finite false 1 (-3)) = "0.12" /\
  PyFloat.format_2f (S754_finite false 3 (-3)) = "0.38".
Proof. split; reflexivity. Qed.

Example format_2f_negative_small :
  PyFloat.format_2f (S754_finite true 1 (-10)) = "-0.00".
Proof. reflexivity. Qed.

Example format_2f_of_int :
  option_map PyFloat.format_2f (PyFloat.of_int (-7)) = Some "-7.00" /\
  option_map PyFloat.format_2f (PyFloat.of_int (2 ^ 53 + 1)) =
    Some "9007199254740992.00".
Proof. split; reflexivity. Qed.

Example of_int_overflows : PyFloat.of_int (2 ^ 1024) = None.
Proof. reflexivity. Qed.

End Runtime_facts.

(* ================================================================== *)
(** * Facts about the client                                            *)
(* ================================================================== *)

Section Search_facts.

Import Client Spec.

Variable lax : conversions.
Variable exc_text : exn -> string.
Variable up : upstream.

Abbreviation search := (search lax exc_text up).
Abbreviation exc_str := (exc_str exc_text).
Abbreviation validate_response := (validate_response lax).
Abbreviation validate_result := (validate_result lax).
Abbreviation failed_with := (failed_with exc_text).

(** [search], case by case on what the upstream answers. *)
Lemma search_cases self q c l t :
  search self q c l t =
  let req := request_of self q c l t in
  match up (base_url self ++ "/search") (search_params q c l t) (timeout self) with
  | TimedOut => failed_with [req] TimeoutException
  | ConnectionFailed => failed_with [req] ConnectError
  | Replied r =>
      if is_success r then
        match json r with
        | None => failed_with [req; response_logged r] JSONDecodeError
        | Some (PDict kwargs) =>
            match validate_response kwargs with
            | Some resp => ([req; response_logged r], Return resp)
            | None =>
                failed_with [req; response_logged r]
                  (ValidationError (PDict kwargs))
            end
        | Some _ => failed_with [req; response_logged r] TypeError
        end
      else failed_with [req] (HTTPStatusError (status_code r))
  end.
Proof.
  unfold Client.search, client_get, request_of, failed_with, response_logged.
  cbv zeta.
  destruct (up _ _ _) as [r| |]; try reflexivity.
  unfold raise_for_status, response_json, SearxngResponse_init, bind,
    try_except, emit, ret, raise.
  destruct (is_success r); [|reflexivity].
  destruct (json r) as [[| | | | | |kwargs]|]; try reflexivity.
  destruct (validate_response kwargs); reflexivity.
Qed.

Lemma is_success_iff r :
  is_success r = true <-> 200 <= status_code r <= 299.
Proof. unfold is_success. rewrite andb_true_iff, !Z.leb_le. tauto. Qed.

(** Every call issues exactly one GET. *)
Lemma search_requests self q c l t :
  requests (trace_of (search self q c l t)) = [request_of self q c l t].
Proof.
  rewrite search_cases. cbv zeta. unfold failed_with.
  destruct (up _ _ _) as [r| |]; try reflexivity.
  destruct (is_success r); [|reflexivity].
  destruct (json r) as [[| | | | | |kwargs]|]; try reflexivity.
  destruct (validate_response kwargs); reflexivity.
Qed.



(** *** The request parameters *)

Lemma params_q q c l t :
  dict_get (search_params q c l t) "q" = Some q.
Proof.
  destruct c as [[|x c]|], l as [[|a l]|], t as [[|b t]|]; reflexivity.
Qed.

Lemma params_format q c l t :
  dict_get (search_params q c l t) "format" = Some "json".
Proof.
  destruct c as [[|x c]|], l as [[|a l]|], t as [[|b t]|]; reflexivity.
Qed.

Lemma params_categories q c l t :
  dict_get (search_params q c l t) "categories" =
  if truthy_opt_list c then Some (join "," (the_list c)) else None.
Proof.
  destruct c as [[|x c]|], l as [[|a l]|], t as [[|b t]|]; reflexivity.
Qed.

Lemma params_time_range q c l t :
  dict_get (search_params q c l t) "time_range" =
  if truthy_opt_str t then t else None.
Proof.
  destruct c as [[|x c]|], l as [[|a l]|], t as [[|b t]|]; reflexivity.
Qed.

Lemma params_language q c l t :
  dict_get (search_params q c l t) "language" =
  if truthy_opt_str l then l else None.
Proof.
  destruct c as [[|x c]|], l as [[|a l]|], t as [[|b t]|]; reflexivity.
Qed.

Lemma truthy_nonempty (s : string) :
  s <> "" -> truthy_opt_str (Some s) = true.
Proof. destruct s; [congruence | reflexivity]. Qed.

(** *** Failures of the upstream call *)

(** C3. When the upstream interaction ends in a timeout, a connection
    failure, a status outside 200..299 or a body that does not decode,
    [search] raises one kind of exception, [ValueError], whose cause is
    the exception of that failure, and returns no response. *)
Theorem search_unified_failure self q c l t rep cause :
  up (base_url self ++ "/search") (search_params q c l t) (timeout self) = rep ->
  upstream_failure rep cause ->
  let r := result_of (search self q c l t) in
  r = Raise (ValueError ("Error during search: " ++ exc_str cause) (Some cause)) /\
  (forall e, r = Raise e -> kind_of e = KValueError /\ cause_of e = Some cause) /\
  (forall resp, r <> Return resp).
Proof.
  intros Hup Hfail r.
  assert (Hr : r = Raise (ValueError ("Error during search: " ++ exc_str cause)
                            (Some cause))).
  { subst r. rewrite search_cases. cbv zeta. rewrite Hup.
    destruct Hfail as [ | | r0 Hst | r0 Hst Hjs ].
    - reflexivity.
    - reflexivity.
    - destruct (is_success r0) eqn:E; [|reflexivity].
      apply is_success_iff in E. lia.
    - apply is_success_iff in Hst. rewrite Hst, Hjs. reflexivity. }
  split; [exact Hr|]. split.
  - intros e He. rewrite Hr in He. injection He as <-. split; reflexivity.
  - intros resp He. rewrite Hr in He. discriminate.
Qed.

(** *** An empty category list *)

(** C10. A call with [categories=[]] builds the parameters of a call
    without [categories] (no [categories] key among them), and the two
    calls emit the same events and end the same way. *)
Theorem search_empty_categories self q l t :
  search_params q (Some []) l t = search_params q None l t /\
  dict_get (search_params q (Some []) l t) "categories" = None /\
  search self q (Some []) l t = search self q None l t.
Proof.
  split; [reflexivity|]. split.
  - rewrite params_categories. reflexivity.
  - reflexivity.
Qed.

(** *** Strictness of the validation *)

Lemma validate_items_bad {A} (item : pyval -> option A) l x :
  In x l -> item x = None -> validate_items item l = None.
Proof.
  induction l as [|v l IH]; simpl; [tauto|].
  intros [->|Hin] Hx.
  - rewrite Hx. reflexivity.
  - rewrite (IH Hin Hx). destruct (item v); reflexivity.
Qed.

Lemma validate_items_length {A} (item : pyval -> option A) l r :
  validate_items item l = Some r -> List.length r = List.length l.
Proof.
  revert r. induction l as [|v l IH]; simpl; intros r.
  - intros [= <-]. reflexivity.
  - destruct (item v); [|discriminate].
    destruct (validate_items item l); [|discriminate].
    intros [= <-]. simpl. f_equal. apply IH. reflexivity.
Qed.

Abbreviation unconvertible := (unconvertible lax).

Lemma str_refused v : unconvertible TStr v -> validate_str v = None.
Proof. destruct v; simpl; tauto || reflexivity. Qed.

Lemma int_refused v :
  unconvertible TInt v -> validate_int lax v = None.
Proof. destruct v; simpl; tauto || reflexivity. Qed.

Lemma float_refused v :
  unconvertible TFloat v -> validate_float lax v = None.
Proof. destruct v; simpl; tauto || reflexivity. Qed.

Lemma list_refused {A} (item : pyval -> option A) t :
  (forall v, unconvertible t v -> item v = None) ->
  forall v, unconvertible (TList t) v -> validate_list item v = None.
Proof.
  intros Hitem v Hv. destruct v as [| | | | |items|]; try reflexivity.
  destruct Hv as (x & Hin & Hx).
  exact (validate_items_bad item items x Hin (Hitem x Hx)).
Qed.

Lemma required_refused {A} d f t (validator : pyval -> option A) :
  (forall v, unconvertible t v -> validator v = None) ->
  match dict_get d f with
  | None => True
  | Some v => unconvertible t v
  end ->
  required d f validator = None.
Proof.
  intros Hv Hf. unfold required.
  destruct (dict_get d f); [apply Hv; exact Hf | reflexivity].
Qed.

(** Walks a chain of field validations down to the one known to fail. *)
Ltac chain_fails H :=
  repeat lazymatch goal with
  | |- match ?x with Some _ => _ | None => None end = None =>
      first [ rewrite H; reflexivity | destruct x; [|reflexivity] ]
  end.

Lemma malformed_result_refused item :
  malformed lax item -> validate_result item = None.
Proof.
  intros Hm. destruct item as [| | | | | |d]; try reflexivity.
  destruct Hm as (f & t & Hin & Hf). simpl in Hin.
  repeat (destruct Hin as [Heq|Hin];
          [injection Heq as <- <-|]); [..|contradiction].
  all: unfold Client.validate_result;
       match type of Hf with
       | match dict_get ?d' ?f with _ => _ end =>
           match goal with
           | |- context [required d' f ?v] =>
               assert (H : required d' f v = None)
                 by (eapply required_refused;
                     [|exact Hf];
                     first [ exact str_refused
                           | exact float_refused
                           | exact (list_refused _ _ str_refused)
                           | exact (list_refused _ _ int_refused) ])
           end
       end;
       chain_fails H.
Qed.

Lemma malformed_results_refused kwargs items item :
  dict_get kwargs "results" = Some (PList items) ->
  In item items ->
  malformed lax item ->
  validate_response kwargs = None.
Proof.
  intros Hres Hin Hm.
  assert (H : required kwargs "results" (validate_list validate_result) = None).
  { unfold required. rewrite Hres. simpl.
    apply (validate_items_bad _ items item Hin).
    apply malformed_result_refused. exact Hm. }
  unfold Client.validate_response. chain_fails H.
Qed.

End Search_facts.

(* ================================================================== *)
(** * Facts about the tool                                              *)
(* ================================================================== *)

Section Tool_facts.

Import Client Server Spec.

Variable lax : conversions.
Variable exc_text : exn -> string.
Variable up : upstream.
Variable settings : Settings.

Abbreviation search := (search lax exc_text up).
Abbreviation exc_str := (exc_str exc_text).
Abbreviation web_search := (web_search lax exc_text up settings).
Abbreviation client := (searxng_client settings).

(** *** The loop of the text branch *)

Lemma str_prefix_first_chars n s : str_prefix n s = first_chars n s.
Proof.
  unfold str_prefix, first_chars. revert s.
  induction n as [|n IH]; intros [|a s]; simpl; try reflexivity.
  rewrite IH. reflexivity.
Qed.

Lemma format_text_loop rs i acc :
  for_each (enumerate rs i) format_text_one acc =
  ret (acc ++ numbered text_entry i rs)%list.
Proof.
  revert i acc. induction rs as [|r rs IH]; intros i acc;
    cbn [enumerate for_each numbered].
  - rewrite app_nil_r. reflexivity.
  - unfold format_text_one at 1. cbv beta iota zeta.
    rewrite bind_ret, IH. unfold list_append. rewrite <- app_assoc.
    unfold text_entry, title_line, excerpt_line.
    rewrite str_prefix_first_chars.
    rewrite !str_app_assoc. reflexivity.
Qed.

Lemma join_blank_line es : join (nl ++ nl) es = blank_line_joined es.
Proof.
  induction es as [|e es IH]; [reflexivity|].
  destruct es as [|e' es]; [reflexivity|].
  change (join (nl ++ nl) (e :: e' :: es))
    with (e ++ (nl ++ nl) ++ join (nl ++ nl) (e' :: es)).
  rewrite IH. reflexivity.
Qed.

Lemma numbered_length {A B} (f : Z -> A -> B) i l :
  List.length (numbered f i l) = List.length l.
Proof. revert i. induction l; intros i; simpl; [|rewrite IHl]; reflexivity. Qed.

Lemma numbered_nth {A B} (f : Z -> A -> B) l :
  forall i k x, nth_error l k = Some x ->
    nth_error (numbered f i l) k = Some (f (i + Z.of_nat k) x).
Proof.
  induction l as [|y l IH]; intros i [|k] x; simpl; try discriminate.
  - intros [= ->]. rewrite Z.add_0_r. reflexivity.
  - intros H. rewrite (IH (i + 1) k x H). do 2 f_equal. lia.
Qed.

(** *** [web_search], case by case *)

Lemma web_search_cases q N c l t fmt ctx :
  web_search q N c l t fmt ctx =
  if N <=? 0
  then ((start_notice ctx ++
         failure_notices ctx "result_count must be greater than 0")%list,
        Raise (ValueError "result_count must be greater than 0" None))
  else
    match search client q c l (option_map time_range_str t) with
    | (tr, Return resp) =>
        ((start_notice ctx ++ tr)%list,
         Return (rendered fmt (slice_to (results resp) N)))
    | (tr, Raise e) =>
        ((start_notice ctx ++ tr ++ failure_notices ctx (exc_str e))%list,
         Raise e)
    end.
Proof.
  unfold Server.web_search, start_notice, failure_notices.
  destruct (N <=? 0).
  - destruct ctx; reflexivity.
  - destruct (search _ _ _ _ _) as [tr [resp|e]].
    + assert (H : forall T (k : unit -> io T) (t0 : list event),
                 bind (when (has_ctx ctx) (emit (CtxInfo "Starting web search...")))
                   k =
                 ((if has_ctx ctx then [CtxInfo "Starting web search..."] else [])
                    ++ trace_of (k tt), result_of (k tt))%list).
      { intros T k _. destruct ctx; simpl; destruct (k tt); reflexivity. }
      rewrite H by exact []. rewrite bind_ret, bind_returned.
      destruct fmt; cbn [result_format_str String.eqb Ascii.eqb Bool.eqb rendered].
      * rewrite format_text_loop, bind_ret, join_blank_line.
        unfold ret, trace_of, result_of, fst, snd, try_except.
        rewrite !app_nil_r. reflexivity.
      * unfold ret, trace_of, result_of, fst, snd, try_except.
        rewrite !app_nil_r. reflexivity.
    + destruct ctx; unfold has_ctx, when, bind, emit, ret, raise, try_except;
        cbn [app]; rewrite ?app_nil_r; reflexivity.
Qed.

(** The requests of a call of the tool: none when [result_count] is
    refused, else the one of [search]. *)
Lemma web_search_requests q N c l t fmt ctx :
  requests (trace_of (web_search q N c l t fmt ctx)) =
  if N <=? 0 then []
  else [request_of client q c l (option_map time_range_str t)].
Proof.
  rewrite web_search_cases.
  destruct (N <=? 0).
  - destruct ctx; reflexivity.
  - pose proof (search_requests lax exc_text up
                  client q c l (option_map time_range_str t)) as Hreq.
    destruct (search _ _ _ _ _) as [tr [resp|e]];
      unfold trace_of, fst in *; rewrite !requests_app, Hreq;
      destruct ctx; reflexivity.
Qed.

Lemma web_search_returned q N c l t fmt ctx tr resp :
  search client q c l (option_map time_range_str t) = (tr, Return resp) ->
  0 < N ->
  web_search q N c l t fmt ctx =
  ((start_notice ctx ++ tr)%list,
   Return (rendered fmt (firstn (Z.to_nat N) (results resp)))).
Proof.
  intros Hs HN. rewrite web_search_cases, Hs.
  destruct (N <=? 0) eqn:E; [apply Z.leb_le in E; lia|].
  rewrite slice_to_pos by lia. reflexivity.
Qed.

(** *** The selection *)

(** C1. For a validated response and [result_count = N > 0], the tool
    renders [results[0:N]]: the first [min(N, L)] results in upstream
    order, all [L] of them when [N] exceeds [L]; with [json] it returns
    these very records. *)
Theorem web_search_selects_prefix q N c l t fmt ctx tr resp :
  search client q c l (option_map time_range_str t) = (tr, Return resp) ->
  0 < N ->
  let L := List.length (results resp) in
  let selected := slice_to (results resp) N in
  selected = firstn (Z.to_nat N) (results resp) /\
  List.length selected = Nat.min (Z.to_nat N) L /\
  (forall k, (k < Nat.min (Z.to_nat N) L)%nat ->
     nth_error selected k = nth_error (results resp) k) /\
  (Z.of_nat L <= N -> selected = results resp) /\
  result_of (web_search q N c l t fmt ctx) = Return (rendered fmt selected) /\
  result_of (web_search q N c l t Json ctx) = Return (Results selected).
Proof.
  intros Hs HN L selected.
  assert (Hsel : selected = firstn (Z.to_nat N) (results resp))
    by (apply slice_to_pos; lia).
  split; [exact Hsel|]. rewrite Hsel. repeat split.
  - apply length_firstn.
  - intros k Hk. rewrite nth_error_firstn.
    destruct (k <? Z.to_nat N)%nat eqn:E; [reflexivity|].
    apply Nat.ltb_ge in E. lia.
  - intros HL. apply firstn_all2. lia.
  - rewrite (web_search_returned q N c l t fmt ctx tr resp Hs HN). reflexivity.
  - rewrite (web_search_returned q N c l t Json ctx tr resp Hs HN). reflexivity.
Qed.

(** *** A refused count *)

(** C4. With [result_count <= 0] the tool raises its
    [ValueError("result_count must be greater than 0")] whatever the
    format: nothing is returned, and no request was issued. *)
Theorem web_search_rejects_count q N c l t fmt ctx :
  N <= 0 ->
  let run := web_search q N c l t fmt ctx in
  result_of run = Raise (ValueError "result_count must be greater than 0" None) /\
  requests (trace_of run) = [] /\
  (forall out, result_of run <> Return out).
Proof.
  intros HN run. subst run.
  rewrite web_search_requests, web_search_cases.
  apply Z.leb_le in HN. rewrite HN. repeat split.
  intros out H. discriminate.
Qed.

(** *** The text rendering *)

Lemma string_of_list_length (cs : list ascii) :
  String.length (string_of_list_ascii cs) = List.length cs.
Proof. induction cs; simpl; [|rewrite IHcs]; reflexivity. Qed.

Lemma list_of_string_length (s : string) :
  List.length (list_ascii_of_string s) = String.length s.
Proof. induction s; simpl; [|rewrite IHs]; reflexivity. Qed.

Lemma first_chars_length n s :
  String.length (first_chars n s) = Nat.min n (String.length s).
Proof.
  unfold first_chars.
  rewrite string_of_list_length, length_firstn, list_of_string_length.
  reflexivity.
Qed.

Lemma first_chars_short n s :
  (String.length s <= n)%nat -> first_chars n s = s.
Proof.
  intros H. unfold first_chars.
  rewrite firstn_all2 by (rewrite list_of_string_length; exact H).
  apply string_of_list_ascii_of_string.
Qed.

Lemma blank_line_joined_snoc es e :
  es <> [] ->
  blank_line_joined (es ++ [e]) = blank_line_joined es ++ nl ++ nl ++ e.
Proof.
  induction es as [|x es IH]; [congruence|]. intros _.
  destruct es as [|y es]; [reflexivity|].
  change (blank_line_joined ((x :: y :: es) ++ [e]))
    with (x ++ nl ++ nl ++ blank_line_joined ((y :: es) ++ [e])).
  rewrite IH by discriminate.
  change (blank_line_joined (x :: y :: es))
    with (x ++ nl ++ nl ++ blank_line_joined (y :: es)).
  rewrite !str_app_assoc. reflexivity.
Qed.

(** C5. With [text] the tool returns one string: the entries of the
    selected results joined by a blank line, nothing after the last;
    the entry of the result at 1-based position [i] is the line
    ["{i}. [{title}]({url})"], a line feed, and three spaces followed by
    the first 200 characters of the content and ["..."], which is there
    also when the content is shorter than 200 characters. *)
Theorem web_search_text_rendering q N c l t ctx tr resp :
  search client q c l (option_map time_range_str t) = (tr, Return resp) ->
  0 < N ->
  let selected := slice_to (results resp) N in
  let entries := numbered text_entry 1 selected in
  result_of (web_search q N c l t Text ctx) =
    Return (Str (blank_line_joined entries)) /\
  List.length entries = List.length selected /\
  (forall k r, nth_error selected k = Some r ->
     nth_error entries k =
     Some (str_of_int (Z.of_nat k + 1) ++ ". [" ++ title r ++ "](" ++ url r ++ ")"
           ++ nl ++ "   " ++ first_chars 200 (content r) ++ "...")) /\
  (forall r, String.length (first_chars 200 (content r)) =
             Nat.min 200 (String.length (content r))) /\
  (forall r, (String.length (content r) <= 200)%nat ->
     excerpt_line r = "   " ++ content r ++ "...") /\
  (forall es e, es <> [] ->
     blank_line_joined (es ++ [e]) = blank_line_joined es ++ nl ++ nl ++ e).
Proof.
  intros Hs HN selected entries. repeat split.
  - rewrite (web_search_returned q N c l t Text ctx tr resp Hs HN).
    subst entries selected. rewrite slice_to_pos by lia. reflexivity.
  - apply numbered_length.
  - intros k r Hk. subst entries.
    rewrite (numbered_nth text_entry selected 1 k r Hk).
    unfold text_entry, title_line, excerpt_line.
    rewrite !str_app_assoc, (Z.add_comm 1). reflexivity.
  - intros r. apply first_chars_length.
  - intros r Hr. unfold excerpt_line. rewrite first_chars_short by exact Hr.
    reflexivity.
  - apply blank_line_joined_snoc.
Qed.

(** *** No results *)

Lemma format_results_empty py_repr data :
  dict_get data "results" = None \/ dict_get data "results" = Some (PList []) ->
  format_results py_repr data = ret "No results found.".
Proof.
  intros H. unfold format_results, dict_get_default.
  destruct H as [-> | ->]; reflexivity.
Qed.

(** C8. For a validated response without results the tool returns the
    empty list with [json] and the empty string with [text]; the
    placeholder ["No results found."] is what [format_results] returns
    for such data, and never what the tool returns here. *)
Theorem web_search_no_results q N c l t fmt ctx tr resp :
  search client q c l (option_map time_range_str t) = (tr, Return resp) ->
  results resp = [] ->
  0 < N ->
  result_of (web_search q N c l t fmt ctx) =
    Return (match fmt with Json => Results [] | Text => Str "" end) /\
  result_of (web_search q N c l t fmt ctx) <> Return (Str "No results found.") /\
  (forall py_repr data,
     dict_get data "results" = None \/ dict_get data "results" = Some (PList []) ->
     format_results py_repr data = ret "No results found.").
Proof.
  intros Hs Hres HN.
  rewrite (web_search_returned q N c l t fmt ctx tr resp Hs HN), Hres.
  rewrite firstn_nil. split; [|split].
  - destruct fmt; reflexivity.
  - destruct fmt; discriminate.
  - apply format_results_empty.
Qed.

(** *** The request *)

(** C7 (amended). Every call of [search] issues one GET of
    [{base_url}/search] whose parameters hold [format=json]; they hold
    [categories], the items joined by commas, exactly when a non-empty
    list is given, and [language], verbatim, exactly when a non-empty
    string is given.  The requests of the tool are the same for both
    output formats. *)
Theorem search_request_shape self q c l t :
  let params := search_params q c l t in
  requests (trace_of (search self q c l t)) =
    [HttpGet (base_url self ++ "/search") params (timeout self)] /\
  dict_get params "format" = Some "json" /\
  dict_get params "categories" =
    match c with
    | Some (x :: cs) => Some (join "," (x :: cs))
    | _ => None
    end /\
  dict_get params "language" =
    match l with
    | Some (String a s) => Some (String a s)
    | _ => None
    end /\
  (forall N tr fmt ctx,
     requests (trace_of (web_search q N c l tr fmt ctx)) =
     requests (trace_of (web_search q N c l tr Json ctx))).
Proof.
  cbv zeta. split; [apply search_requests|].
  split; [apply params_format|].
  split; [rewrite params_categories; destruct c as [[|x cs]|]; reflexivity|].
  split; [rewrite params_language; destruct l as [[|a s]|]; reflexivity|].
  intros N tr fmt ctx. rewrite !web_search_requests. reflexivity.
Qed.

(** C6 (amended). [search] does not check [time_range]: any non-empty
    string is sent as the [time_range] parameter of the one GET.  The
    four tokens are the values of the tool's parameter type, and the
    tool hands the token it is given to [search]. *)
Theorem time_range_forwarded_unchecked self q c l token :
  token <> "" ->
  dict_get (search_params q c l (Some token)) "time_range" = Some token /\
  requests (trace_of (search self q c l (Some token))) =
    [HttpGet (base_url self ++ "/search") (search_params q c l (Some token))
       (timeout self)] /\
  (forall tr : TimeRange, In (time_range_str tr) ["day"; "week"; "month"; "year"]) /\
  (forall N tr fmt ctx, 0 < N ->
     requests (trace_of (web_search q N c l (Some tr) fmt ctx)) =
     [HttpGet (base_url client ++ "/search")
        (search_params q c l (Some (time_range_str tr))) (timeout client)]).
Proof.
  intros Ht. split.
  - rewrite params_time_range, (truthy_nonempty token Ht). reflexivity.
  - split; [apply search_requests|]. split.
    + intros []; simpl; tauto.
    + intros N tr fmt ctx HN. rewrite web_search_requests.
      destruct (N <=? 0) eqn:E; [apply Z.leb_le in E; lia|]. reflexivity.
Qed.

End Tool_facts.

(* ================================================================== *)
(** * Facts about the loose formatter                                   *)
(* ================================================================== *)

Section Format_facts.

Import Client Spec.

Variable py_repr : pyval -> string.

Abbreviation py_str := (py_str py_repr).
Abbreviation format_one := (format_one py_repr).
Abbreviation format_results := (format_results py_repr).
Abbreviation loose_entry := (loose_entry py_repr).
Abbreviation shown := (shown py_repr).

Lemma format_2f_value v f :
  score_value v = Some f -> format_2f v = ret (PyFloat.format_2f f).
Proof.
  destruct v; simpl; try discriminate.
  - intros [= <-]. reflexivity.
  - intros ->. reflexivity.
  - intros [= <-]. reflexivity.
Qed.

Lemma gt_zero_number n :
  is_number n = true -> gt_zero n = ret (is_positive n).
Proof. destruct n; simpl; try discriminate; reflexivity. Qed.

Lemma shown_default d k placeholder :
  py_str (dict_get_default d k (PStr placeholder)) = shown d k placeholder.
Proof.
  unfold dict_get_default, Spec.shown. destruct (dict_get d k); reflexivity.
Qed.

Lemma format_one_showable acc i item :
  showable item ->
  format_one acc (i, item) = ret (list_append acc (loose_entry i item)).
Proof.
  destruct item as [| | | | | |d]; simpl; try contradiction.
  intros Hscore. rewrite !shown_default.
  unfold date_line, score_line.
  destruct (dict_get d "publishedDate") as [dv|];
    (destruct (dict_get d "score") as [sv|];
     [ destruct (score_value sv) as [f|] eqn:E;
       [ rewrite (format_2f_value sv f E), !bind_ret
       | exfalso; exact (Hscore sv eq_refl E) ]
     | rewrite bind_ret ]);
    f_equal; f_equal;
    repeat first [ rewrite str_app_assoc
                 | rewrite str_app_nil_r
                 | progress cbn [String.append nl] ];
    reflexivity.
Qed.

Lemma format_loose_loop items :
  Forall showable items ->
  forall i acc,
    for_each (enumerate items i) format_one acc =
    ret (acc ++ numbered loose_entry i items)%list.
Proof.
  induction 1 as [|item items Hitem _ IH]; intros i acc;
    cbn [enumerate for_each numbered].
  - rewrite app_nil_r. reflexivity.
  - rewrite (format_one_showable acc i item Hitem), bind_ret, IH.
    unfold list_append. rewrite <- app_assoc. reflexivity.
Qed.

Lemma digit_is_digit n :
  exists a, PyFloat.digit n = String a EmptyString /\ is_digit a.
Proof.
  unfold PyFloat.digit, is_digit. eexists. split; [reflexivity|].
  pose proof (Z.mod_pos_bound n 10 ltac:(lia)) as Hb.
  rewrite nat_ascii_embedding by lia. lia.
Qed.

Lemma fixed2_two_decimals sign h :
  two_decimals (sign ++ PyFloat.fixed2 h).
Proof.
  unfold PyFloat.fixed2.
  destruct (digit_is_digit (h / 10)) as (d1 & -> & H1).
  destruct (digit_is_digit h) as (d2 & -> & H2).
  exists (sign ++ str_of_int (h / 100)), d1, d2.
  rewrite str_app_assoc. repeat split; assumption || reflexivity || apply H1 || apply H2.
Qed.

Lemma format_2f_two_decimals f :
  is_finite f = true -> two_decimals (PyFloat.format_2f f).
Proof.
  destruct f as [s|s| |s m e]; simpl; try discriminate; intros _;
    apply fixed2_two_decimals.
Qed.

(** C9 (amended). Without a [results] key, or with an empty list under
    it, [format_results] returns ["No results found."].  For a non-empty
    list of mappings, where each score present is a number that fits a
    float and the estimate, if present, is a number, it returns the
    header (the query when the key is present, the estimate when it is
    present and positive), a blank line, and the entries joined by blank
    lines; an entry shows ["No title"], ["No URL"], ["No description"]
    for absent keys, a [Date:] line when [publishedDate] is present and a
    [Score:] line when [score] is present, the score with two
    decimals. *)
Theorem format_results_presentable data :
  (dict_get data "results" = None \/ dict_get data "results" = Some (PList []) ->
   format_results data = ret "No results found.") /\
  (forall items, presentable data items ->
     format_results data =
     ret (header py_repr data ++ nl ++ nl ++
          blank_line_joined (numbered loose_entry 1 items))) /\
  (forall f, is_finite f = true -> two_decimals (PyFloat.format_2f f)).
Proof.
  split; [apply format_results_empty|].
  split; [|apply format_2f_two_decimals].
  intros items (Hres & Hne & Hnum & Hitems).
  unfold Client.format_results, dict_get_default. rewrite Hres.
  destruct items as [|item items]; [congruence|].
  cbn [truthy negb].
  unfold header, query_lines, estimate_lines.
  destruct (dict_get data "query") as [qv|];
    (destruct (dict_get data "number_of_results") as [n|] eqn:En;
     [ rewrite (gt_zero_number n (Hnum n eq_refl)) | ]);
    repeat first [ rewrite bind_ret
                 | progress cbv beta zeta
                 | progress cbn [iterate]
                 | rewrite (format_loose_loop _ Hitems) ];
    rewrite join_blank_line;
    try destruct (is_positive n); reflexivity.
Qed.

End Format_facts.

(* ================================================================== *)
(** * The facts at the sample inputs                                    *)
(* ================================================================== *)

Section Sample_runs.

Import Client Server Spec Sample.

Abbreviation sample_search up :=
  (search Sample.lax Sample.exc_text up).
Abbreviation sample_web_search up :=
  (web_search Sample.lax Sample.exc_text up
     Sample.settings).

Lemma two_cats_found :
  sample_search (always (Replied (ok two_cats))) Sample.client
    "cats" None (Some "all") None =
  (cats_trace [("language", "all")], Return (response_of [cat_facts; cat_pics])).
Proof. reflexivity. Qed.

Lemma no_hits_found :
  sample_search (always (Replied (ok no_hits))) Sample.client
    "cats" None (Some "all") None =
  (cats_trace [("language", "all")], Return (response_of [])).
Proof. reflexivity. Qed.

(** Five results asked of two: both come back, as records. *)
Lemma web_search_selects_prefix_sample :
  0 < 5 /\
  result_of (sample_web_search (always (Replied (ok two_cats)))
               "cats" 5 None (Some "all") None Json None) =
  Return (Results [cat_facts; cat_pics]).
Proof.
  split; [reflexivity|].
  exact (proj2 (proj2 (proj2 (proj2 (proj2
    (web_search_selects_prefix Sample.lax
       Sample.exc_text (always (Replied (ok two_cats))) Sample.settings
       "cats" 5 None (Some "all") None Json None _ _
       two_cats_found eq_refl)))))).
Defined.

(** One result asked of two, as text: 200 letters of the 250, then the
    ellipsis. *)
Lemma web_search_text_rendering_sample :
  0 < 1 /\
  result_of (sample_web_search (always (Replied (ok two_cats)))
               "cats" 1 None (Some "all") None Text None) =
  Return (Str ("1. [Cat facts](http://a)" ++ nl ++ "   " ++ xs 200 ++ "...")).
Proof.
  split; [reflexivity|].
  exact (proj1
    (web_search_text_rendering Sample.lax
       Sample.exc_text (always (Replied (ok two_cats))) Sample.settings
       "cats" 1 None (Some "all") None None _ _
       two_cats_found eq_refl)).
Defined.

(** No results: the empty string, not the placeholder. *)
Lemma web_search_no_results_sample :
  0 < 3 /\
  result_of (sample_web_search (always (Replied (ok no_hits)))
               "cats" 3 None (Some "all") None Text None) =
  Return (Str "").
Proof.
  split; [reflexivity|].
  exact (proj1
    (web_search_no_results Sample.lax
       Sample.exc_text (always (Replied (ok no_hits))) Sample.settings
       "cats" 3 None (Some "all") None Text None _ _
       no_hits_found eq_refl eq_refl)).
Defined.

(** A count of zero: refused, nothing requested. *)
Lemma web_search_rejects_count_sample :
  0 <= 0 /\
  result_of (sample_web_search (always (Replied (ok two_cats)))
               "cats" 0 None (Some "all") None Json (Some HostContext)) =
  Raise (ValueError "result_count must be greater than 0" None) /\
  requests (trace_of (sample_web_search (always (Replied (ok two_cats)))
               "cats" 0 None (Some "all") None Json (Some HostContext))) = [].
Proof.
  split; [discriminate|].
  pose proof (web_search_rejects_count Sample.lax
       Sample.exc_text (always (Replied (ok two_cats))) Sample.settings
       "cats" 0 None (Some "all") None Json (Some HostContext)
       ltac:(discriminate)) as H.
  exact (conj (proj1 H) (proj1 (proj2 H))).
Defined.

(** A timeout: the [ValueError] whose cause is the timeout. *)
Lemma search_unified_failure_sample :
  upstream_failure TimedOut TimeoutException /\
  result_of (sample_search (always TimedOut) Sample.client
               "cats" None None None) =
  Raise (ValueError "Error during search: timed out" (Some TimeoutException)).
Proof.
  split; [constructor|].
  exact (proj1
    (search_unified_failure Sample.lax
       Sample.exc_text (always TimedOut) Sample.client "cats" None None None
       TimedOut TimeoutException eq_refl timeout_failure)).
Defined.

Lemma engineless_malformed :
  malformed Sample.lax (PDict engineless).
Proof. exists "engine", TStr. split; [simpl; tauto | exact I]. Defined.

(** C2, as stated, fails: a JSON [true] among [positions], where
    integers are declared, is read as 1 and the call succeeds. *)
Lemma mistyped_position_accepted :
  has_type (TList TInt) (PList [PBool true]) = false /\
  result_of (sample_search (always (Replied (ok flagged_cat))) Sample.client
               "cats" None None None) =
  Return (response_of [validated "Cat facts" "http://a" "x" [1]]).
Proof. split; reflexivity. Qed.

(** C6, as stated, fails: [search] sends an unrecognized token
    upstream and returns what comes back. *)
Lemma unrecognized_time_range_sent :
  ~ In "decade" ["day"; "week"; "month"; "year"] /\
  requests (trace_of (sample_search (always (Replied (ok two_cats)))
                        Sample.client "cats" None None (Some "decade"))) =
  [cats_request [("time_range", "decade")]] /\
  result_of (sample_search (always (Replied (ok two_cats)))
               Sample.client "cats" None None (Some "decade")) =
  Return (response_of [cat_facts; cat_pics]).
Proof.
  split; [|split; reflexivity].
  simpl. intros [H|[H|[H|[H|[]]]]]; discriminate.
Qed.

Lemma time_range_forwarded_unchecked_sample :
  "decade" <> "" /\
  dict_get (search_params "cats" None None (Some "decade")) "time_range" =
  Some "decade".
Proof.
  split; [discriminate|].
  exact (proj1
    (time_range_forwarded_unchecked Sample.lax
       Sample.exc_text (always TimedOut) Sample.settings Sample.client
       "cats" None None "decade" ltac:(discriminate))).
Defined.

(** C7, as stated, fails: a language that is present but empty is not
    passed, and a category list that is present but empty is not
    joined into a parameter. *)
Lemma empty_language_not_sent :
  search_params "cats" (Some []) (Some "") None =
  [("q", "cats"); ("format", "json")].
Proof. reflexivity. Qed.

(** C9, as stated, fails: a score that is a text makes the formatter
    raise. *)
Lemma text_score_raises :
  dict_mem text_scored "results" = true /\
  format_results Sample.py_repr text_scored =
  raise (ValueError "Unknown format code 'f' for object of type 'str'" None).
Proof. split; reflexivity. Qed.

Lemma loose_data_presentable : presentable loose_data loose_items.
Proof.
  split; [reflexivity|]. split; [discriminate|]. split.
  - intros n [= <-]. reflexivity.
  - repeat constructor; simpl; intros v [= <-]; discriminate.
Defined.

(** The sample data, formatted. *)
Lemma format_results_presentable_sample :
  format_results Sample.py_repr loose_data =
  ret ("Query: cats" ++ nl ++ "Found approximately 2 results" ++ nl ++ nl ++
       "1. Cat facts" ++ nl ++ "   URL: http://a" ++ nl ++
       "   No description" ++ nl ++ "   Date: 2024-01-01" ++ nl ++
       "   Score: 0.38" ++ nl ++ nl ++
       "2. No title" ++ nl ++ "   URL: No URL" ++ nl ++ "   short").
Proof.
  exact (proj1 (proj2 (format_results_presentable Sample.py_repr loose_data))
           loose_items loose_data_presentable).
Defined.

End Sample_runs.

(* ================================================================== *)
(** * Further facts about the client                                    *)
(* ================================================================== *)

Section Init_facts.

Import Client Cover.

Lemma rstrip_decompose c s : exists k, s = rstrip c s ++ rep c k.
Proof.
  induction s as [|a s IH]; [exists 0%nat; reflexivity|].
  destruct IH as [k IH]. cbn [rstrip].
  destruct (rstrip c s) as [|b r] eqn:E.
  - destruct (Ascii.eqb a c) eqn:Eac.
    + apply Ascii.eqb_eq in Eac. subst a. exists (S k).
      simpl in *. rewrite <- IH. reflexivity.
    + exists k. simpl in *. rewrite <- IH. reflexivity.
  - exists k. cbn [append]. f_equal. exact IH.
Qed.

Lemma rstrip_no_trailing c s : forall t, rstrip c s <> t ++ String c EmptyString.
Proof.
  induction s as [|a s IH]; intros t.
  - destruct t; discriminate.
  - cbn [rstrip]. destruct (rstrip c s) as [|b r] eqn:E.
    + destruct (Ascii.eqb a c) eqn:Eac.
      * destruct t; discriminate.
      * destruct t as [|x [|y t]]; cbn [append]; try discriminate.
        intros [= ->]. rewrite Ascii.eqb_refl in Eac. discriminate.
    + destruct t as [|x t]; cbn [append].
      * discriminate.
      * intros [= -> H]. exact (IH t H).
Qed.

Lemma rstrip_fixed c s :
  (forall t, s <> t ++ String c EmptyString) -> rstrip c s = s.
Proof.
  induction s as [|a s IH]; intros H; [reflexivity|].
  cbn [rstrip].
  assert (Hs : forall t, s <> t ++ String c EmptyString).
  { intros t ->. apply (H (String a t)). reflexivity. }
  rewrite (IH Hs). destruct s as [|b r]; [|reflexivity].
  destruct (Ascii.eqb a c) eqn:Eac; [|reflexivity].
  apply Ascii.eqb_eq in Eac. subst a. exfalso. apply (H ""). reflexivity.
Qed.

(** X1. The client keeps the URL it is given less its trailing slashes,
    all of them and nothing else; a client built again from what it
    keeps is the same client, and the time limit is kept as given. *)
Theorem init_strips_trailing_slashes url limit :
  let self := SearxNGClient_init url limit in
  (exists k, url = base_url self ++ rep "/"%char k) /\
  (forall t, base_url self <> t ++ "/") /\
  SearxNGClient_init (base_url self) limit = self /\
  timeout self = limit.
Proof.
  cbv zeta. unfold SearxNGClient_init. cbn [base_url timeout].
  split; [apply rstrip_decompose|].
  split; [apply rstrip_no_trailing|].
  split; [|reflexivity].
  f_equal. apply rstrip_fixed. apply rstrip_no_trailing.
Qed.

End Init_facts.

Section Validation_facts.

Import Client Spec Cover.

Variable lax : conversions.
Variable exc_text : exn -> string.
Variable up : upstream.

Abbreviation search := (search lax exc_text up).
Abbreviation exc_str := (exc_str exc_text).
Abbreviation validate_response := (validate_response lax).
Abbreviation validate_result := (validate_result lax).
Abbreviation failed_with := (failed_with exc_text).

(** *** What a validated response holds *)

Lemma validate_items_nth {A} (item : pyval -> option A) l :
  forall r, validate_items item l = Some r ->
  forall k v, nth_error l k = Some v ->
    exists a, nth_error r k = Some a /\ item v = Some a.
Proof.
  induction l as [|x l IH]; intros r Hr k v Hk.
  - destruct k; discriminate.
  - simpl in Hr. destruct (item x) as [a|] eqn:Ex; [|discriminate].
    destruct (validate_items item l) as [r'|] eqn:El; [|discriminate].
    injection Hr as <-. destruct k as [|k]; simpl in *.
    + injection Hk as <-. exists a. split; [reflexivity|exact Ex].
    + exact (IH r' eq_refl k v Hk).
Qed.

Lemma validate_str_inv v s : validate_str v = Some s -> v = PStr s.
Proof. destruct v; simpl; try discriminate. intros [= ->]. reflexivity. Qed.

Lemma validate_strs_inv l :
  forall r, validate_items validate_str l = Some r -> l = map PStr r.
Proof.
  induction l as [|x l IH]; intros r; simpl.
  - intros [= <-]. reflexivity.
  - destruct (validate_str x) as [a|] eqn:Ex; [|discriminate].
    destruct (validate_items validate_str l) as [r'|]; [|discriminate].
    intros [= <-]. simpl. rewrite (validate_str_inv x a Ex), (IH r' eq_refl).
    reflexivity.
Qed.

Lemma required_str_inv d f s :
  required d f validate_str = Some s -> dict_get d f = Some (PStr s).
Proof.
  unfold required. destruct (dict_get d f) as [v|]; [|discriminate].
  intros H. rewrite (validate_str_inv v s H). reflexivity.
Qed.

Lemma required_strs_inv d f r :
  required d f (validate_list validate_str) = Some r ->
  dict_get d f = Some (PList (map PStr r)).
Proof.
  unfold required. destruct (dict_get d f) as [v|]; [|discriminate].
  destruct v as [| | | | |l|]; simpl; try discriminate.
  intros H. rewrite (validate_strs_inv l r H). reflexivity.
Qed.

Lemma defaulted_any_inv d f v :
  defaulted d f validate_any PNone = Some v -> v = dict_get_default d f PNone.
Proof.
  unfold defaulted, dict_get_default, validate_any.
  destruct (dict_get d f); intros [= <-]; reflexivity.
Qed.

(** Opens a chain of field validations that is known to succeed. *)
Ltac open_chain H :=
  repeat match type of H with
  | match ?x with Some _ => _ | None => None end = Some _ =>
      let E := fresh "E" in
      destruct x eqn:E; [|discriminate H]
  end.

Lemma validated_fields d r :
  validate_result (PDict d) = Some r ->
  dict_get d "url" = Some (PStr (url r)) /\
  dict_get d "title" = Some (PStr (title r)) /\
  dict_get d "content" = Some (PStr (content r)) /\
  dict_get d "engine" = Some (PStr (engine r)) /\
  dict_get d "template" = Some (PStr (template r)) /\
  dict_get d "img_src" = Some (PStr (img_src r)) /\
  dict_get d "priority" = Some (PStr (priority r)) /\
  dict_get d "category" = Some (PStr (category r)) /\
  dict_get d "parsed_url" = Some (PList (map PStr (parsed_url r))) /\
  dict_get d "engines" = Some (PList (map PStr (engines r))) /\
  thumbnail r = dict_get_default d "thumbnail" PNone /\
  published_date r = dict_get_default d "publishedDate" PNone.
Proof.
  intros H. unfold Client.validate_result in H. open_chain H.
  injection H as <-. cbn [url title content engine template img_src priority
                          category parsed_url engines thumbnail published_date].
  repeat split;
    first [ apply required_str_inv; assumption
          | apply required_strs_inv; assumption
          | apply defaulted_any_inv; assumption ].
Qed.

(** X3. A result that passes validation holds the upstream strings as
    they came: the eight text fields and the two lists of strings are
    those of the item, and [thumbnail] and [published_date] are the
    item's [thumbnail] and [publishedDate], or [None] when the item has
    no such key. *)
Theorem validated_result_verbatim d r :
  validate_result (PDict d) = Some r ->
  dict_get d "url" = Some (PStr (url r)) /\
  dict_get d "title" = Some (PStr (title r)) /\
  dict_get d "content" = Some (PStr (content r)) /\
  dict_get d "engine" = Some (PStr (engine r)) /\
  dict_get d "template" = Some (PStr (template r)) /\
  dict_get d "img_src" = Some (PStr (img_src r)) /\
  dict_get d "priority" = Some (PStr (priority r)) /\
  dict_get d "category" = Some (PStr (category r)) /\
  dict_get d "parsed_url" = Some (PList (map PStr (parsed_url r))) /\
  dict_get d "engines" = Some (PList (map PStr (engines r))) /\
  thumbnail r = dict_get_default d "thumbnail" PNone /\
  published_date r = dict_get_default d "publishedDate" PNone.
Proof. exact (validated_fields d r). Qed.

Lemma search_success_inv self q c l t tr resp :
  search self q c l t = (tr, Return resp) ->
  exists r kwargs items,
    up (base_url self ++ "/search") (search_params q c l t) (timeout self)
      = Replied r /\
    200 <= status_code r <= 299 /\
    json r = Some (PDict kwargs) /\
    dict_get kwargs "query" = Some (PStr (query resp)) /\
    dict_get kwargs "results" = Some (PList items) /\
    List.length (results resp) = List.length items /\
    (forall k item, nth_error items k = Some item ->
       exists rk, nth_error (results resp) k = Some rk /\
                  validate_result item = Some rk).
Proof.
  rewrite search_cases. cbv zeta. unfold Spec.failed_with.
  destruct (up _ _ _) as [r| |] eqn:Hup; try discriminate.
  destruct (is_success r) eqn:Hst; [|discriminate].
  destruct (json r) as [[| | | | | |kwargs]|] eqn:Hjs; try discriminate.
  destruct (validate_response kwargs) as [resp'|] eqn:Hv; [|discriminate].
  intros [= _ ->].
  unfold Client.validate_response in Hv. open_chain Hv.
  injection Hv as <-. cbn [query results].
  match goal with
  | H : required kwargs "results" _ = Some _ |- _ =>
      unfold required in H;
      destruct (dict_get kwargs "results") as [[| | | | |items|]|] eqn:Hres;
      try discriminate H; cbn [validate_list] in H; rename H into Hitems
  end.
  exists r, kwargs, items.
  split; [reflexivity || exact Hup|].
  split; [apply is_success_iff; exact Hst|].
  split; [reflexivity || exact Hjs|].
  split; [apply required_str_inv; assumption|].
  split; [reflexivity || exact Hres|]. split.
  - exact (validate_items_length _ _ _ Hitems).
  - exact (validate_items_nth _ _ _ Hitems).
Qed.

(** X2. [search] returns a response only for a reply with a status in
    200..299 whose body decodes to a mapping; the response echoes the
    body's [query], and its [results] are the validated items of the
    body's [results], as many and in the same order. *)
Theorem search_returns_validated_body self q c l t tr resp :
  search self q c l t = (tr, Return resp) ->
  exists r kwargs items,
    up (base_url self ++ "/search") (search_params q c l t) (timeout self)
      = Replied r /\
    200 <= status_code r <= 299 /\
    json r = Some (PDict kwargs) /\
    dict_get kwargs "query" = Some (PStr (query resp)) /\
    dict_get kwargs "results" = Some (PList items) /\
    List.length (results resp) = List.length items /\
    (forall k item, nth_error items k = Some item ->
       exists rk, nth_error (results resp) k = Some rk /\
                  validate_result item = Some rk).
Proof. exact (search_success_inv self q c l t tr resp). Qed.

Lemma dict_get_other {V} (d : dict V) k v f :
  f <> k -> dict_get ((k, v) :: d) f = dict_get d f.
Proof.
  intros H. cbn [dict_get]. destruct (String.eqb f k) eqn:E; [|reflexivity].
  apply String.eqb_eq in E. contradiction.
Qed.

(** X4. Validation reads an item of [results] under the fourteen
    aliases of the model and the body under its three field names: an
    entry under any other key changes nothing.  The field name
    [published_date] is such a key, its alias [publishedDate] is not. *)
Theorem undeclared_keys_ignored k v :
  (~ In k result_keys ->
   forall d, validate_result (PDict ((k, v) :: d)) = validate_result (PDict d)) /\
  (~ In k response_keys ->
   forall kwargs, validate_response ((k, v) :: kwargs) = validate_response kwargs) /\
  ~ In "published_date" result_keys /\
  In "publishedDate" result_keys.
Proof.
  split; [|split; [|split]].
  - intros Hk d.
    unfold Client.validate_result, required, defaulted.
    rewrite !(dict_get_other d k v)
      by (intros E; apply Hk; rewrite <- E; simpl; tauto).
    reflexivity.
  - intros Hk kwargs.
    unfold Client.validate_response, required.
    rewrite !(dict_get_other kwargs k v)
      by (intros E; apply Hk; rewrite <- E; simpl; tauto).
    reflexivity.
  - simpl. intuition discriminate.
  - simpl. tauto.
Qed.

(** X5. When a reply with a status in 200..299 decodes to JSON that is
    no mapping (a list, a string, a number, [null]), [search] raises its
    [ValueError] with a [TypeError] as cause. *)
Theorem search_rejects_non_mapping_body self q c l t r v :
  up (base_url self ++ "/search") (search_params q c l t) (timeout self)
    = Replied r ->
  200 <= status_code r <= 299 ->
  json r = Some v ->
  (forall kwargs, v <> PDict kwargs) ->
  result_of (search self q c l t) =
    Raise (ValueError ("Error during search: " ++ exc_str TypeError)
             (Some TypeError)).
Proof.
  intros Hup Hst Hjs Hv. rewrite search_cases. cbv zeta. rewrite Hup.
  apply is_success_iff in Hst. rewrite Hst, Hjs.
  destruct v; try reflexivity. exfalso. exact (Hv _ eq_refl).
Qed.

Ltac chain_stops H :=
  repeat lazymatch goal with
  | |- match ?x with Some _ => _ | None => None end = None =>
      first [ rewrite H; reflexivity | destruct x; [|reflexivity] ]
  end.

(** X6. When the body is a mapping without [query], without
    [number_of_results] or without [results], or with a [query] that is
    no string or [results] that is no list, [search] raises its
    [ValueError] with the [ValidationError] of the body as cause. *)
Theorem search_rejects_incomplete_body self q c l t r kwargs :
  up (base_url self ++ "/search") (search_params q c l t) (timeout self)
    = Replied r ->
  200 <= status_code r <= 299 ->
  json r = Some (PDict kwargs) ->
  dict_get kwargs "query" = None \/
  dict_get kwargs "number_of_results" = None \/
  dict_get kwargs "results" = None \/
  (exists v, dict_get kwargs "query" = Some v /\ forall s, v <> PStr s) \/
  (exists v, dict_get kwargs "results" = Some v /\ forall items, v <> PList items) ->
  let cause := ValidationError (PDict kwargs) in
  result_of (search self q c l t) =
    Raise (ValueError ("Error during search: " ++ exc_str cause) (Some cause)).
Proof.
  intros Hup Hst Hjs Hbad cause.
  assert (Hv : validate_response kwargs = None).
  { unfold Client.validate_response.
    destruct Hbad as [H|[H|[H|[(v & H & Hv)|(v & H & Hv)]]]].
    - assert (H' : required kwargs "query" validate_str = None)
        by (unfold required; rewrite H; reflexivity).
      chain_stops H'.
    - assert (H' : required kwargs "number_of_results" (validate_int lax) = None)
        by (unfold required; rewrite H; reflexivity).
      chain_stops H'.
    - assert (H' : required kwargs "results" (validate_list validate_result) = None)
        by (unfold required; rewrite H; reflexivity).
      chain_stops H'.
    - assert (H' : required kwargs "query" validate_str = None).
      { unfold required. rewrite H. destruct v; try reflexivity.
        exfalso. exact (Hv _ eq_refl). }
      chain_stops H'.
    - assert (H' : required kwargs "results" (validate_list validate_result) = None).
      { unfold required. rewrite H. destruct v; try reflexivity.
        exfalso. exact (Hv _ eq_refl). }
      chain_stops H'. }
  rewrite search_cases. cbv zeta. rewrite Hup.
  apply is_success_iff in Hst. rewrite Hst, Hjs, Hv. reflexivity.
Qed.


(** *** Strict up to conversion *)

Lemma validate_int_reads v z :
  validate_int lax v = Some z -> reads_as_int lax v z.
Proof.
  destruct v as [|b| | | | |]; simpl; try discriminate; intros H.
  - injection H as <-. destruct b; constructor.
  - injection H as <-. constructor.
  - constructor. exact H.
  - constructor. exact H.
Qed.

Lemma validate_float_reads v f :
  validate_float lax v = Some f -> reads_as_float lax v f.
Proof.
  destruct v as [|b| | | | |]; simpl; try discriminate; intros H.
  - injection H as <-. destruct b; constructor.
  - constructor. exact H.
  - injection H as <-. constructor.
  - constructor. exact H.
Qed.

Lemma validate_items_related {A} (item : pyval -> option A)
  (R : pyval -> A -> Prop) :
  (forall v a, item v = Some a -> R v a) ->
  forall l r, validate_items item l = Some r -> Forall2 R l r.
Proof.
  intros HR. induction l as [|x l IH]; intros r; simpl.
  - intros [= <-]. constructor.
  - destruct (item x) as [a|] eqn:Ex; [|discriminate].
    destruct (validate_items item l) as [r'|]; [|discriminate].
    intros [= <-]. constructor; [apply HR; exact Ex | apply IH; reflexivity].
Qed.

Lemma validated_conversions d r :
  validate_result (PDict d) = Some r -> accepted_as lax (PDict d) r.
Proof.
  intros H. exists d. split; [reflexivity|].
  split; [exact (validated_fields d r H)|].
  unfold Client.validate_result in H. open_chain H.
  injection H as <-. cbn [positions score].
  split.
  - match goal with
    | E : required d "positions" _ = Some _ |- _ =>
        unfold required in E;
        destruct (dict_get d "positions") as [[| | | | |ps|]|];
        try discriminate E; cbn [validate_list] in E;
        exists ps; split; [reflexivity|];
        exact (validate_items_related _ _ validate_int_reads _ _ E)
    end.
  - match goal with
    | E : required d "score" _ = Some _ |- _ =>
        unfold required in E;
        destruct (dict_get d "score") as [sv|]; [|discriminate E];
        exists sv; split; [reflexivity|];
        exact (validate_float_reads _ _ E)
    end.
Qed.

Lemma str_refusal_inv v :
  validate_str v = None -> unconvertible lax TStr v.
Proof. destruct v; simpl; solve [trivial | discriminate]. Qed.

Lemma int_refusal_inv v :
  validate_int lax v = None -> unconvertible lax TInt v.
Proof. destruct v; simpl; solve [trivial | discriminate]. Qed.

Lemma float_refusal_inv v :
  validate_float lax v = None -> unconvertible lax TFloat v.
Proof. destruct v; simpl; solve [trivial | discriminate]. Qed.

Lemma validate_items_none_inv {A} (item : pyval -> option A) l :
  validate_items item l = None -> exists x, In x l /\ item x = None.
Proof.
  induction l as [|x l IH]; simpl; [discriminate|].
  destruct (item x) as [a|] eqn:Ex.
  - destruct (validate_items item l) as [r|]; [discriminate|].
    intros _. destruct (IH eq_refl) as (y & Hin & Hy).
    exists y. split; [right; exact Hin | exact Hy].
  - intros _. exists x. split; [left; reflexivity | exact Ex].
Qed.

Lemma list_refusal_inv {A} (item : pyval -> option A) t :
  (forall v, item v = None -> unconvertible lax t v) ->
  forall v, validate_list item v = None -> unconvertible lax (TList t) v.
Proof.
  intros Hitem v H. destruct v as [| | | | |l|]; simpl; trivial.
  destruct (validate_items_none_inv item l H) as (x & Hin & Hx).
  exists x. split; [exact Hin | apply Hitem; exact Hx].
Qed.

Lemma required_none_inv {A} d f t (validator : pyval -> option A) :
  (forall v, validator v = None -> unconvertible lax t v) ->
  required d f validator = None ->
  match dict_get d f with
  | None => True
  | Some v => unconvertible lax t v
  end.
Proof.
  intros Hv. unfold required.
  destruct (dict_get d f) as [v|]; [apply Hv | trivial].
Qed.

(** Names the field at which a chain of field validations stopped. *)
Ltac blame E :=
  lazymatch type of E with
  | required ?d ?f ?v = None =>
      exists f; eexists;
      split;
      [ simpl; repeat first [ left; reflexivity | right ]
      | eapply required_none_inv; [|exact E];
        first [ exact str_refusal_inv
              | exact float_refusal_inv
              | exact (list_refusal_inv _ _ str_refusal_inv)
              | exact (list_refusal_inv _ _ int_refusal_inv) ] ]
  | defaulted ?d ?f ?v ?x = None =>
      exfalso; unfold defaulted, validate_any in E;
      destruct (dict_get d f); discriminate E
  end.

Lemma refused_result_malformed item :
  validate_result item = None -> malformed lax item.
Proof.
  destruct item as [| | | | | |d]; simpl; trivial.
  intros H.
  repeat match type of H with
  | match ?x with Some _ => _ | None => None end = None =>
      let E := fresh "E" in
      destruct x eqn:E; [|clear H; blame E]
  end.
  all: try discriminate H.
Qed.

Lemma wellformed_result_accepted item :
  ~ malformed lax item ->
  exists r, validate_result item = Some r /\ accepted_as lax item r.
Proof.
  intros Hm. destruct (validate_result item) as [r|] eqn:E.
  - exists r. split; [reflexivity|].
    destruct item as [| | | | | |d]; try discriminate E.
    exact (validated_conversions d r E).
  - exfalso. exact (Hm (refused_result_malformed item E)).
Qed.

Lemma wellformed_results_accepted items :
  Forall (fun item => ~ malformed lax item) items ->
  exists rs, validate_items validate_result items = Some rs /\
             Forall2 (accepted_as lax) items rs.
Proof.
  induction 1 as [|item items Hitem _ (rs & Hrs & Hall)].
  - exists []. split; [reflexivity | constructor].
  - destruct (wellformed_result_accepted item Hitem) as (r & Hr & Hacc).
    exists (r :: rs). split.
    + simpl. rewrite Hr, Hrs. reflexivity.
    + constructor; assumption.
Qed.

(** C2 (amended). Of a successful reply that decodes to a mapping with a
    list under [results]:
    - when the list holds an item that is no mapping, that lacks one of
      the twelve required fields, or that holds under one of them a
      value lax validation cannot convert to the declared type,
      [search] raises its [ValueError] with the [ValidationError] of the
      whole body as cause, and returns no response, hence no result at
      all;
    - when the list holds no such item, [query] is a string and
      [number_of_results] converts to a whole number, [search] returns
      the response: the query, that number, and one record for each
      item, in order, holding the item's strings as they are, its
      positions read as whole numbers ([true] as 1, [false] as 0) and
      its score read as a float ([true] as 1.0, [false] as 0.0, an
      integer as the nearest float). *)
Theorem search_rejects_malformed_result self q c l t r kwargs items :
  up (base_url self ++ "/search") (search_params q c l t) (timeout self)
    = Replied r ->
  200 <= status_code r <= 299 ->
  json r = Some (PDict kwargs) ->
  dict_get kwargs "results" = Some (PList items) ->
  (forall item,
     In item items ->
     malformed lax item ->
     let cause := ValidationError (PDict kwargs) in
     result_of (search self q c l t) =
       Raise (ValueError ("Error during search: " ++ exc_str cause) (Some cause)) /\
     (forall resp, result_of (search self q c l t) <> Return resp)) /\
  (forall qs nv,
     dict_get kwargs "query" = Some (PStr qs) ->
     dict_get kwargs "number_of_results" = Some nv ->
     ~ unconvertible lax TInt nv ->
     Forall (fun item => ~ malformed lax item) items ->
     exists n rs,
       reads_as_int lax nv n /\
       result_of (search self q c l t) =
         Return {| query := qs; number_of_results := n; results := rs |} /\
       Forall2 (accepted_as lax) items rs).
Proof.
  intros Hup Hst Hjs Hres. apply is_success_iff in Hst. split.
  - intros item Hin Hm cause.
    assert (Hr : result_of (search self q c l t) =
                 Raise (ValueError ("Error during search: " ++ exc_str cause)
                          (Some cause))).
    { rewrite search_cases. cbv zeta. rewrite Hup, Hst, Hjs.
      rewrite (malformed_results_refused lax kwargs items item Hres Hin Hm).
      reflexivity. }
    split; [exact Hr|]. intros resp He. rewrite Hr in He. discriminate.
  - intros qs nv Hq Hn Hnv Hitems.
    destruct (validate_int lax nv) as [n|] eqn:En;
      [|exfalso; exact (Hnv (int_refusal_inv nv En))].
    destruct (wellformed_results_accepted items Hitems) as (rs & Hrs & Hall).
    exists n, rs. split; [exact (validate_int_reads nv n En)|].
    split; [|exact Hall].
    rewrite search_cases. cbv zeta. rewrite Hup, Hst, Hjs.
    unfold Client.validate_response, required.
    rewrite Hq, Hn, Hres. cbn [validate_str validate_list].
    rewrite En, Hrs. reflexivity.
Qed.

End Validation_facts.

Section Params_facts.

Import Client Cover.

(** X10. The parameters of a request start with [q], the query as
    given, and [format=json]; they hold no key twice and no key besides
    [q], [format], [categories], [time_range] and [language], one entry
    for each of the last three that is given and not empty. *)
Theorem search_params_keys q c l t :
  let params := search_params q c l t in
  firstn 2 params = [("q", q); ("format", "json")] /\
  NoDup (map fst params) /\
  (forall k, In k (map fst params) -> In k param_keys) /\
  List.length params =
    (2 + (if truthy_opt_list c then 1 else 0)
       + (if truthy_opt_str t then 1 else 0)
       + (if truthy_opt_str l then 1 else 0))%nat.
Proof.
  destruct c as [[|x cs]|], l as [[|a l]|], t as [[|b t]|];
    cbv zeta; (split; [reflexivity|]); (split; [|split; [|reflexivity]]);
    try (repeat constructor; simpl; intuition discriminate);
    simpl; tauto.
Qed.

End Params_facts.

(* ================================================================== *)
(** * Further facts about the tool                                      *)
(* ================================================================== *)

Section Handler_facts.

Import Client Server Spec Cover.

Variable lax : conversions.
Variable exc_text : exn -> string.
Variable up : upstream.
Variable settings : Settings.

Abbreviation search := (search lax exc_text up).
Abbreviation exc_str := (exc_str exc_text).
Abbreviation web_search := (web_search lax exc_text up settings).
Abbreviation client := (searxng_client settings).

(** [search] sends no notice and logs no error record of the tool's. *)
Lemma search_trace_quiet self q c l t :
  notices (trace_of (search self q c l t)) = [] /\
  errors_logged (trace_of (search self q c l t)) = [] /\
  silent (trace_of (search self q c l t)) = trace_of (search self q c l t).
Proof.
  rewrite search_cases. cbv zeta. unfold Spec.failed_with.
  destruct (up _ _ _) as [r| |];
    [ destruct (is_success r);
      [ destruct (json r) as [[| | | | | |kwargs]|];
        [ | | | | | | destruct (validate_response lax kwargs) | ]
      | ]
    | | ];
    (split; [|split]); reflexivity.
Qed.

Lemma notices_app t t' : notices (t ++ t') = (notices t ++ notices t')%list.
Proof. apply filter_app. Qed.


Lemma silent_app t t' : silent (t ++ t') = (silent t ++ silent t')%list.
Proof. apply filter_app. Qed.


(** X8. The tool sends the host at most two notices, and none without
    a context: ["Starting web search..."] first, and after it, only
    when the call fails, ["Error during search: "] with the text of the
    exception. *)
Theorem web_search_notices q N c l t fmt ctx :
  let run := web_search q N c l t fmt ctx in
  notices (trace_of run) =
    (if has_ctx ctx
     then CtxInfo "Starting web search..." ::
          match result_of run with
          | Raise e => [CtxInfo ("Error during search: " ++ exc_str e)]
          | Return _ => []
          end
     else []) /\
  (List.length (notices (trace_of run)) <= 2)%nat.
Proof.
  cbv zeta. rewrite web_search_cases.
  assert (Hq := search_trace_quiet client q c l (option_map time_range_str t)).
  destruct Hq as (Hq & _ & _).
  destruct (N <=? 0).
  - destruct ctx; split; simpl; auto.
  - destruct (search _ _ _ _ _) as [tr [resp|e]];
      unfold trace_of, result_of, fst, snd in *;
      unfold start_notice, failure_notices;
      rewrite ?notices_app, Hq; destruct ctx; split; simpl; auto.
Qed.

(** X9. The context changes nothing but the notices: with it and
    without it the tool ends the same way and leaves the same other
    events, the request among them. *)
Theorem context_only_adds_notices q N c l t fmt ctx :
  result_of (web_search q N c l t fmt ctx) =
    result_of (web_search q N c l t fmt None) /\
  silent (trace_of (web_search q N c l t fmt ctx)) =
    trace_of (web_search q N c l t fmt None).
Proof.
  rewrite !web_search_cases.
  assert (Hq := search_trace_quiet client q c l (option_map time_range_str t)).
  destruct Hq as (_ & _ & Hq).
  destruct (N <=? 0).
  - destruct ctx; split; reflexivity.
  - destruct (search _ _ _ _ _) as [tr [resp|e]];
      unfold trace_of, result_of, fst, snd in *;
      unfold start_notice, failure_notices;
      rewrite ?silent_app, Hq; destruct ctx; split; simpl;
      rewrite ?app_nil_r; reflexivity.
Qed.


End Handler_facts.

(* ================================================================== *)
(** * Further facts about the loose formatter                           *)
(* ================================================================== *)

Section Formatter_failures.

Import Client Spec Cover.

Variable py_repr : pyval -> string.

Abbreviation format_one := (format_one py_repr).
Abbreviation format_results := (format_results py_repr).

Lemma list_of_string_app a b :
  list_ascii_of_string (a ++ b) =
  (list_ascii_of_string a ++ list_ascii_of_string b)%list.
Proof. induction a as [|x a IH]; simpl; [|rewrite IH]; reflexivity. Qed.

Lemma has_nl_app a b : has_nl (a ++ b) = has_nl a || has_nl b.
Proof. unfold has_nl. rewrite list_of_string_app. apply existsb_app. Qed.

Lemma bind_returns {A B} (m : io A) (k : A -> io B) x :
  result_of (bind m k) = Return x ->
  exists a, result_of m = Return a /\ result_of (k a) = Return x.
Proof.
  destruct m as [t [a|e]]; unfold bind, result_of; [|discriminate].
  destruct (k a) as [t' r] eqn:E. simpl. intros ->.
  exists a. rewrite E. split; reflexivity.
Qed.

(** X12. [format_results] returns ["No results found."] exactly when
    [results] is absent or false as a truth value (an empty list,
    [None], an empty string, zero): with results to show it raises or
    returns another text. *)
Theorem placeholder_iff_no_results data :
  result_of (format_results data) = Return "No results found." <->
  truthy (dict_get_default data "results" (PList [])) = false.
Proof.
  unfold Client.format_results. split.
  - destruct (truthy (dict_get_default data "results" (PList []))) eqn:E;
      [|reflexivity].
    cbn [negb]. intros H. exfalso.
    apply bind_returns in H as (si & _ & H).
    apply bind_returns in H as (items & _ & H).
    apply bind_returns in H as (fr & _ & H).
    unfold ret, result_of, snd in H. injection H as H.
    apply (f_equal has_nl) in H. rewrite !has_nl_app in H.
    rewrite (orb_comm (has_nl (join nl si))) in H. discriminate H.
  - intros ->. reflexivity.
Qed.

(** X13. With results to show, an estimate that is no number (a
    string, [None], a list, a mapping) makes [format_results] raise
    [TypeError], before any result is looked at. *)
Theorem non_numeric_estimate_raises data n :
  truthy (dict_get_default data "results" (PList [])) = true ->
  dict_get data "number_of_results" = Some n ->
  is_number n = false ->
  format_results data = raise TypeError.
Proof.
  intros Ht Hn Hnum. unfold Client.format_results. rewrite Ht, Hn.
  destruct n; try discriminate Hnum; reflexivity.
Qed.

Lemma showable_iff_no_error item : showable item <-> item_error item = None.
Proof.
  destruct item as [| | | | | |d]; simpl; try (split; [tauto|discriminate]).
  destruct (dict_get d "score") as [[| | z| | | |]|]; split; intros H;
    try discriminate H; try reflexivity;
    try (intros v [= <-]; simpl; discriminate);
    try (exfalso; apply (H _ eq_refl); reflexivity);
    try (intros v; discriminate).
  - destruct (PyFloat.of_int z) eqn:E; [reflexivity|].
    exfalso. apply (H _ eq_refl). exact E.
  - intros v [= <-]. simpl. destruct (PyFloat.of_int z); discriminate.
Qed.

Lemma format_one_error acc i item e :
  item_error item = Some e -> format_one acc (i, item) = raise e.
Proof.
  destruct item as [| | | | | |d]; simpl; try (intros [= <-]; reflexivity).
  destruct (dict_get d "score") as [[| | z| | | |]|]; try discriminate;
    try (intros [= <-]; destruct (dict_get d "publishedDate"); reflexivity).
  unfold format_2f. destruct (PyFloat.of_int z); [discriminate|].
  intros [= <-]. destruct (dict_get d "publishedDate"); reflexivity.
Qed.

Lemma loop_stops_at_error pre item post e :
  Forall showable pre ->
  item_error item = Some e ->
  forall i acc,
    for_each (enumerate (pre ++ item :: post) i) format_one acc = raise e.
Proof.
  intros Hpre He. induction Hpre as [|x pre Hx _ IH]; intros i acc;
    cbn [app enumerate for_each].
  - rewrite (format_one_error acc i item e He). reflexivity.
  - rewrite (format_one_showable py_repr acc i x Hx), bind_ret. apply IH.
Qed.

(** X14. When the estimate, if any, is a number and the results are
    a list, the first result that cannot be shown decides how
    [format_results] ends: [AttributeError] for a result that is no
    mapping; for a score, [ValueError] when it is a string,
    [OverflowError] when it is an integer beyond float range,
    [TypeError] when it is [None], a list or a mapping.  No text is
    returned for the results before it. *)
Theorem first_bad_result_raises data pre item post e :
  dict_get data "results" = Some (PList (pre ++ item :: post)) ->
  (forall n, dict_get data "number_of_results" = Some n -> is_number n = true) ->
  Forall showable pre ->
  item_error item = Some e ->
  format_results data = raise e.
Proof.
  intros Hres Hnum Hpre He.
  unfold Client.format_results, dict_get_default. rewrite Hres.
  replace (truthy (PList (pre ++ item :: post))) with true
    by (destruct pre; reflexivity).
  cbn [negb].
  destruct (dict_get data "query") as [qv|];
    (destruct (dict_get data "number_of_results") as [n|] eqn:En;
     [ rewrite (gt_zero_number n (Hnum n eq_refl)) | ]);
    repeat first [ rewrite bind_ret
                 | progress cbv beta zeta
                 | progress cbn [iterate] ];
    rewrite (loop_stops_at_error pre item post e Hpre He); reflexivity.
Qed.

End Formatter_failures.

Section End_to_end.

Import Client Server Spec Cover.

Variable lax : conversions.
Variable exc_text : exn -> string.
Variable up : upstream.
Variable settings : Settings.

Abbreviation web_search := (web_search lax exc_text up settings).
Abbreviation client := (searxng_client settings).

(** X15. When the tool returns records, they are the first
    [min(result_count, L)] of the [L] items under [results] in the
    upstream body, in order, and the record at a position holds the
    [title], [url] and [content] strings of the item at that position. *)
Theorem web_search_json_end_to_end q N c l t ctx out :
  result_of (web_search q N c l t Json ctx) = Return out ->
  exists r kwargs items selected,
    up (base_url client ++ "/search")
       (search_params q c l (option_map time_range_str t)) (timeout client)
      = Replied r /\
    json r = Some (PDict kwargs) /\
    dict_get kwargs "results" = Some (PList items) /\
    out = Results selected /\
    List.length selected = Nat.min (Z.to_nat N) (List.length items) /\
    (forall k rk, nth_error selected k = Some rk ->
       exists d, nth_error items k = Some (PDict d) /\
                 dict_get d "title" = Some (PStr (title rk)) /\
                 dict_get d "url" = Some (PStr (url rk)) /\
                 dict_get d "content" = Some (PStr (content rk))).
Proof.
  rewrite web_search_cases.
  destruct (N <=? 0) eqn:EN; [discriminate|]. apply Z.leb_gt in EN.
  destruct (Client.search _ _ _ _ _ _ _ _) as [tr [resp|e]] eqn:Hs;
    [|discriminate].
  unfold result_of, snd, rendered. intros [= <-].
  destruct (search_success_inv lax exc_text up _ _ _ _ _ _ _ Hs)
    as (r & kwargs & items & Hup & _ & Hjs & _ & Hres & Hlen & Hnth).
  exists r, kwargs, items, (slice_to (results resp) N).
  rewrite slice_to_pos by lia.
  repeat split; try assumption.
  - rewrite length_firstn, Hlen. reflexivity.
  - intros k rk Hk.
    assert (Hlt : (k < Z.to_nat N)%nat).
    { destruct (Nat.ltb k (Z.to_nat N)) eqn:E; [apply Nat.ltb_lt; exact E|].
      rewrite nth_error_firstn, E in Hk. discriminate. }
    rewrite nth_error_firstn in Hk.
    apply Nat.ltb_lt in Hlt. rewrite Hlt in Hk.
    assert (Hki : (k < List.length items)%nat).
    { rewrite <- Hlen. apply nth_error_Some. rewrite Hk. discriminate. }
    destruct (nth_error items k) as [item|] eqn:Hitem;
      [|apply nth_error_None in Hitem; lia].
    destruct (Hnth k item Hitem) as (rk' & Hrk' & Hv).
    rewrite Hk in Hrk'. injection Hrk' as <-.
    destruct item as [| | | | | |d]; try discriminate Hv.
    exists d. split; [reflexivity|].
    destruct (validated_fields lax d rk Hv) as (Hu & Ht & Hc & _).
    repeat split; assumption.
Qed.

End End_to_end.

(* ================================================================== *)
(** * The further facts at the sample inputs                            *)
(* ================================================================== *)

Section More_sample_runs.

Import Client Server Spec Cover Sample.

Abbreviation sample_search up :=
  (search Sample.lax Sample.exc_text up).
Abbreviation sample_web_search up :=
  (web_search Sample.lax Sample.exc_text up Sample.settings).

(** The two hits come back validated, two of two, in order. *)
Lemma search_returns_validated_body_sample :
  sample_search (always (Replied (ok two_cats))) Sample.client
    "cats" None (Some "all") None =
  (cats_trace [("language", "all")], Return (response_of [cat_facts; cat_pics]))
  /\
  exists r kwargs items,
    always (Replied (ok two_cats)) (base_url Sample.client ++ "/search")
      (search_params "cats" None (Some "all") None) (timeout Sample.client)
      = Replied r /\
    200 <= status_code r <= 299 /\
    json r = Some (PDict kwargs) /\
    dict_get kwargs "query" =
      Some (PStr (query (response_of [cat_facts; cat_pics]))) /\
    dict_get kwargs "results" = Some (PList items) /\
    List.length (results (response_of [cat_facts; cat_pics])) =
      List.length items /\
    (forall k item, nth_error items k = Some item ->
       exists rk,
         nth_error (results (response_of [cat_facts; cat_pics])) k = Some rk /\
         validate_result Sample.lax item = Some rk).
Proof.
  split; [exact two_cats_found|].
  exact (search_returns_validated_body Sample.lax Sample.exc_text
           (always (Replied (ok two_cats))) Sample.client
           "cats" None (Some "all") None _ _ two_cats_found).
Defined.

(** The second hit, validated, holds its own strings. *)
Lemma validated_result_verbatim_sample :
  validate_result Sample.lax (PDict (hit "Cat pics" "http://b" "short" [PInt 2]))
    = Some cat_pics /\
  dict_get (hit "Cat pics" "http://b" "short" [PInt 2]) "title"
    = Some (PStr (title cat_pics)).
Proof.
  split; [reflexivity|].
  exact (proj1 (proj2
    (validated_result_verbatim Sample.lax
       (hit "Cat pics" "http://b" "short" [PInt 2]) cat_pics eq_refl))).
Defined.

(** [suggestions] beside the fields of the body, and the field name
    [published_date] in a hit, change nothing. *)
Lemma undeclared_keys_ignored_sample :
  validate_result Sample.lax
    (PDict (("published_date", PStr "2024-01-01") ::
            hit "Cat pics" "http://b" "short" [PInt 2]))
  = Some cat_pics.
Proof.
  rewrite (proj1 (undeclared_keys_ignored Sample.lax
                    "published_date" (PStr "2024-01-01"))).
  - reflexivity.
  - simpl. intuition discriminate.
Defined.

(** A body that is a JSON list. *)
Lemma search_rejects_non_mapping_body_sample :
  200 <= 200 <= 299 /\
  result_of (sample_search (always (Replied (ok list_body))) Sample.client
               "cats" None None None) =
  Raise (ValueError "Error during search: argument must be a mapping"
           (Some TypeError)).
Proof.
  split; [lia|].
  exact (search_rejects_non_mapping_body Sample.lax Sample.exc_text
           (always (Replied (ok list_body))) Sample.client
           "cats" None None None (ok list_body) list_body
           eq_refl ltac:(simpl; lia) eq_refl ltac:(discriminate)).
Defined.

(** A body without [number_of_results]. *)
Lemma search_rejects_incomplete_body_sample :
  dict_get no_estimate "number_of_results" = None /\
  result_of (sample_search (always (Replied (ok (PDict no_estimate))))
               Sample.client "cats" None None None) =
  Raise (ValueError "Error during search: validation error for SearxngResponse"
           (Some (ValidationError (PDict no_estimate)))).
Proof.
  split; [reflexivity|].
  exact (search_rejects_incomplete_body Sample.lax Sample.exc_text
           (always (Replied (ok (PDict no_estimate)))) Sample.client
           "cats" None None None (ok (PDict no_estimate)) no_estimate
           eq_refl ltac:(simpl; lia) eq_refl (or_intror (or_introl eq_refl))).
Defined.


(** An estimate of ["many"]. *)
Lemma non_numeric_estimate_raises_sample :
  is_number (PStr "many") = false /\
  format_results Sample.py_repr text_estimate = raise TypeError.
Proof.
  split; [reflexivity|].
  exact (non_numeric_estimate_raises Sample.py_repr text_estimate (PStr "many")
           eq_refl eq_refl eq_refl).
Defined.

(** A result that is a string after one that can be shown. *)
Lemma first_bad_result_raises_sample :
  item_error (PStr "x") = Some AttributeError /\
  format_results Sample.py_repr
    [("results", PList [PDict [("title", PStr "Cat facts")]; PStr "x"])]
  = raise AttributeError.
Proof.
  split; [reflexivity|].
  refine (first_bad_result_raises Sample.py_repr
            [("results", PList [PDict [("title", PStr "Cat facts")]; PStr "x"])]
            [PDict [("title", PStr "Cat facts")]] (PStr "x") [] AttributeError
            eq_refl _ _ eq_refl).
  - intros n H. discriminate H.
  - constructor; [|constructor]. intros v H. discriminate H.
Defined.

(** One record asked of two hits: the first, with its title. *)
Lemma web_search_json_end_to_end_sample :
  result_of (sample_web_search (always (Replied (ok two_cats)))
               "cats" 1 None (Some "all") None Json None) =
  Return (Results [cat_facts]) /\
  exists r kwargs items selected,
    always (Replied (ok two_cats)) (base_url (searxng_client Sample.settings) ++ "/search")
      (search_params "cats" None (Some "all") (option_map time_range_str None))
      (timeout (searxng_client Sample.settings)) = Replied r /\
    json r = Some (PDict kwargs) /\
    dict_get kwargs "results" = Some (PList items) /\
    Results [cat_facts] = Results selected /\
    List.length selected = Nat.min (Z.to_nat 1) (List.length items) /\
    (forall k rk, nth_error selected k = Some rk ->
       exists d, nth_error items k = Some (PDict d) /\
                 dict_get d "title" = Some (PStr (title rk)) /\
                 dict_get d "url" = Some (PStr (url rk)) /\
                 dict_get d "content" = Some (PStr (content rk))).
Proof.
  split; [reflexivity|].
  exact (web_search_json_end_to_end Sample.lax Sample.exc_text
           (always (Replied (ok two_cats))) Sample.settings
           "cats" 1 None (Some "all") None None (Results [cat_facts]) eq_refl).
Defined.

Lemma flagged_cat_wellformed :
  Forall (fun item => ~ malformed Sample.lax item)
    [PDict (hit "Cat facts" "http://a" "x" [PBool true])].
Proof.
  constructor; [|constructor].
  intros (f & t & Hin & H). simpl in Hin.
  repeat (destruct Hin as [Heq|Hin]; [injection Heq as <- <-; simpl in H|]);
    try contradiction;
    destruct H as (x & Hx & Hu);
    repeat (destruct Hx as [<-|Hx]; [exact Hu|]);
    contradiction.
Defined.

(** A hit without [engine]: the whole call fails.  A hit with [true]
    among its positions: the call returns it, the position read as 1. *)
Lemma search_rejects_malformed_result_sample :
  (dict_get engineless "engine" = None /\
   result_of (sample_search (always (Replied (ok (body_of [PDict engineless]))))
                Sample.client "cats" None None None) =
   Raise (ValueError "Error during search: validation error for SearxngResponse"
            (Some (ValidationError (body_of [PDict engineless]))))) /\
  (exists n rs,
     reads_as_int Sample.lax (PInt 2) n /\
     result_of (sample_search (always (Replied (ok flagged_cat)))
                  Sample.client "cats" None None None) =
       Return {| query := "cats"; number_of_results := n; results := rs |} /\
     Forall2 (accepted_as Sample.lax)
       [PDict (hit "Cat facts" "http://a" "x" [PBool true])] rs).
Proof.
  split.
  - split; [reflexivity|].
    exact (proj1 (proj1
      (search_rejects_malformed_result Sample.lax Sample.exc_text
         (always (Replied (ok (body_of [PDict engineless]))))
         Sample.client "cats" None None None
         (ok (body_of [PDict engineless])) _ [PDict engineless]
         eq_refl ltac:(simpl; lia) eq_refl eq_refl)
      (PDict engineless) (or_introl eq_refl) engineless_malformed)).
  - exact (proj2
      (search_rejects_malformed_result Sample.lax Sample.exc_text
         (always (Replied (ok flagged_cat)))
         Sample.client "cats" None None None
         (ok flagged_cat) _ [PDict (hit "Cat facts" "http://a" "x" [PBool true])]
         eq_refl ltac:(simpl; lia) eq_refl eq_refl)
      "cats" (PInt 2) eq_refl eq_refl (fun H => H) flagged_cat_wellformed).
Defined.

End More_sample_runs.
